(** * Minimarket "Buena Fe": ledger and chart projections

    A shallow embedding of the stock ledger (App.tsx, Billing, Inventory)
    and of the two chart builders (Dashboard, ProductAnalytics), with the
    properties of the ledger-and-projection engine proved about it.

    Conventions of the embedding.
    - A JavaScript [number] holding a stock, a quantity or an amount is an
      integer of [Z]: every numeric input of the forms has the default step
      of 1, and the seed catalog is in whole pesos.  Averages and random
      draws are rationals of [Q]; floating-point rounding, NaN and infinities
      are not modelled.
    - A calendar date (the string yyyy-mm-dd) is its day number since
      1970-01-01; an instant ([Date]) is a number of milliseconds since the
      epoch, UTC.  The local time zone is a parameter: [setDate] and
      [getDate] work on the local wall-clock time, so that
      [setDate(getDate() + n)] moves an instant by [n] whole days only where
      the zone's offset does not change in between.
    - [useState] cells are explicit state: a handler is a function from the
      state it closes over to the state it sets.
    - [Math.random()] and [crypto.randomUUID()] are inputs: the sequence of
      draws is a function [nat -> Q], the fresh identifier a string. *)

From Stdlib Require Import ZArith QArith Qround List Sorted Permutation Ascii String DecimalString Bool Lia Lqa.
Import ListNotations.

#[local] Open Scope string_scope.
#[local] Open Scope list_scope.
#[local] Open Scope Z_scope.

(** ** Dates and instants *)

Definition ISODate := Z.
Definition Instant := Z.

Definition msPerDay : Z := 86400000.

(** Day number of the civil date y-m-d (proleptic Gregorian calendar). *)
Definition isoDate (y m d : Z) : ISODate :=
  let y' := if m <=? 2 then y - 1 else y in
  let era := y' / 400 in
  let yoe := y' - era * 400 in
  let mp := if 2 <? m then m - 3 else m + 9 in
  let doy := (153 * mp + 2) / 5 + d - 1 in
  let doe := yoe * 365 + yoe / 4 - yoe / 100 + doy in
  era * 146097 + doe - 719468.

(** [new Date(s)] for a date-only string [s]: midnight UTC of that day. *)
Definition newDate (d : ISODate) : Instant := d * msPerDay.

(** [t.toISOString().split('T')[0]]: the UTC calendar day of an instant. *)
Definition toISODate (t : Instant) : ISODate := t / msPerDay.

(** The local time zone, by the two offsets of ECMAScript, in milliseconds:
    [utcOffset t] is the offset in force at the instant [t] (LocalTZA(t, true));
    [localOffset l] is the offset by which the local wall-clock time [l] is
    read (LocalTZA(l, false): the offset before the transition for a time
    that a transition skips or repeats).  An offset is less than a day. *)
Record TimeZone := mkTimeZone {
  utcOffset : Instant -> Z;
  localOffset : Z -> Z;
  utcOffset_lt_day : forall t, - msPerDay < utcOffset t < msPerDay;
  localOffset_lt_day : forall l, - msPerDay < localOffset l < msPerDay
}.

(** [LocalTime(t)] and [UTC(l)]. *)
Definition LocalTime (zone : TimeZone) (t : Instant) : Z := t + utcOffset zone t.

Definition UTC (zone : TimeZone) (l : Z) : Instant := l - localOffset zone l.

(** [t.setDate(t.getDate() + n)]: the local wall-clock time of [t], moved by
    [n] calendar days at the same time of day, read back as an instant. *)
Definition addDays (zone : TimeZone) (t : Instant) (n : Z) : Instant :=
  UTC zone (LocalTime zone t + n * msPerDay).

(** By how much [addDays zone t n] is away from [n] whole days after [t]:
    the offset at [t] minus the offset of the wall-clock time reached. *)
Definition offsetShift (zone : TimeZone) (t : Instant) (n : Z) : Z :=
  utcOffset zone t - localOffset zone (LocalTime zone t + n * msPerDay).

(** The zone's offset does not change between [t] and the wall-clock times
    from [lo] to [hi] days away. *)
Definition steadyOver (zone : TimeZone) (t : Instant) (lo hi : Z) : Prop :=
  forall n, lo <= n <= hi -> offsetShift zone t n = 0.

(** A zone without transitions. *)
Definition fixedZone (offset : Z) (H : - msPerDay < offset < msPerDay) : TimeZone :=
  mkTimeZone (fun _ => offset) (fun _ => offset) (fun _ => H) (fun _ => H).

Definition utc : TimeZone := fixedZone 0 (conj eq_refl eq_refl).

(** ** types.ts *)

Module Types.

Record Product := mkProduct {
  id : string;
  name : string;
  category : string;
  currentStock : Z;
  minStock : Z;
  price : Z;
  cost : Z;
  lastRestocked : ISODate
}.

Inductive InvoiceType := SALE | PURCHASE.

Record InvoiceItem := mkInvoiceItem {
  productId : string;
  productName : string;
  quantity : Z;
  unitPrice : Z;
  total : Z
}.

(** The invoice's [id] is [inv_id] here: [id] is the product's projection. *)
Record Invoice := mkInvoice {
  inv_id : string;
  type : InvoiceType;
  date : ISODate;
  items : list InvoiceItem;
  totalAmount : Z;
  notes : option string
}.

Inductive TimeRange := WEEK | MONTH | YEAR.

Definition isSale (t : InvoiceType) : bool :=
  match t with SALE => true | PURCHASE => false end.

Definition isPurchase (t : InvoiceType) : bool :=
  match t with SALE => false | PURCHASE => true end.

End Types.
Import Types.

(** ** Array and Map helpers *)

(** [arr.sort((a, b) => key(a) - key(b))]: a stable sort on an integer key. *)
Fixpoint insertBy {A : Type} (key : A -> Z) (x : A) (l : list A) : list A :=
  match l with
  | [] => [x]
  | y :: l' => if key x <? key y then x :: l else y :: insertBy key x l'
  end.

Definition sortBy {A : Type} (key : A -> Z) (l : list A) : list A :=
  fold_left (fun acc x => insertBy key x acc) l [].

(** The order such a sort establishes. *)
Definition byKey {A : Type} (key : A -> Z) (a b : A) : Prop := key a <= key b.

(** [arr.slice(-n)]: the last [n] elements, the whole array if it is shorter. *)
Definition sliceLast {A : Type} (n : nat) (l : list A) : list A :=
  skipn (List.length l - n) l.

(** [arr[arr.length - 1] = f(arr[arr.length - 1])], in place. *)
Fixpoint updateLast {A : Type} (f : A -> A) (l : list A) : list A :=
  match l with
  | [] => []
  | [x] => [f x]
  | x :: l' => x :: updateLast f l'
  end.

(** A JavaScript [Map] keyed by date: entries in insertion order. *)
Definition DateMap (V : Type) := list (ISODate * V).

Fixpoint Map_get {V : Type} (m : DateMap V) (k : ISODate) : option V :=
  match m with
  | [] => None
  | (k', v) :: m' => if k' =? k then Some v else Map_get m' k
  end.

Fixpoint Map_set {V : Type} (m : DateMap V) (k : ISODate) (v : V) : DateMap V :=
  match m with
  | [] => [(k, v)]
  | (k', v') :: m' =>
      if k' =? k then (k, v) :: m' else (k', v') :: Map_set m' k v
  end.

(** [Math.round] on a rational: nearest integer, halves upwards. *)
Definition Math_round (x : Q) : Z := Qfloor (x + (1 # 2))%Q.

(** ** constants.ts *)

Definition INITIAL_PRODUCTS : list Product :=
  [ mkProduct "1" "Leche Entera 1L" "Lácteos" 12 20 1200 800 (isoDate 2023 10 20);
    mkProduct "2" "Pan de Molde Blanco" "Panadería" 5 15 2500 1800 (isoDate 2023 10 22);
    mkProduct "3" "Bebida Cola 3L" "Bebidas" 45 30 3200 2100 (isoDate 2023 10 15);
    mkProduct "4" "Arroz Grado 2" "Despensa" 8 25 1100 750 (isoDate 2023 10 10);
    mkProduct "5" "Yogurt Batido Fresa" "Lácteos" 30 20 450 280 (isoDate 2023 10 24);
    mkProduct "6" "Aceite Maravilla 1L" "Despensa" 3 10 2800 1900 (isoDate 2023 9 30);
    mkProduct "7" "Cerveza Lager 6pack" "Alcohol" 22 15 5990 3500 (isoDate 2023 10 18);
    mkProduct "8" "Papas Fritas 250g" "Snacks" 14 20 2100 1200 (isoDate 2023 10 21) ].

(** ** constants.ts: the generated history *)

Module Mock.

(** [Math.floor(r * n)] *)
Definition floorTimes (r : Q) (n : Z) : Z := Qfloor (r * inject_Z n)%Q.

(** [INITIAL_PRODUCTS[index]], [None] for [undefined]. *)
Definition productAt (index : Z) : option Product :=
  if index <? 0 then None else nth_error INITIAL_PRODUCTS (Z.to_nat index).

(** [`inv-${i}`] *)
Definition invoiceId (i : nat) : string :=
  "inv-" ++ NilZero.string_of_uint (Nat.to_uint i).

(** The inner loop: [n] more items, the next draw being the [k]-th.
    Reading a field of [undefined] throws: [None]. *)
Fixpoint mockItems (random : nat -> Q) (isSale : bool) (n k : nat)
    (items : list InvoiceItem) (totalAmount : Z)
    : option (list InvoiceItem * Z * nat) :=
  match n with
  | O => Some (items, totalAmount, k)
  | S n' =>
      match productAt (floorTimes (random k)
                         (Z.of_nat (List.length INITIAL_PRODUCTS))) with
      | None => None
      | Some prod =>
          let qty := floorTimes (random (S k)) 5 + 1 in
          let unitPrice' := if isSale then price prod else cost prod in
          let total' := qty * unitPrice' in
          mockItems random isSale n' (S (S k))
            (items ++ [mkInvoiceItem (id prod) (name prod) qty unitPrice' total'])
            (totalAmount + total')
      end
  end.

(** The outer loop: [count] more invoices, the next being number [i]. *)
Fixpoint mockLoop (zone : TimeZone) (random : nat -> Q) (today : Instant)
    (count i k : nat)
    (invoices : list Invoice) : option (list Invoice) :=
  match count with
  | O => Some invoices
  | S count' =>
      let daysAgo := floorTimes (random k) 30 in
      let date' := addDays zone today (- daysAgo) in
      let isSale := negb (Qle_bool (random (S k)) (3 # 10)) in
      let numItems := floorTimes (random (S (S k))) 3 + 1 in
      match mockItems random isSale (Z.to_nat numItems) (S (S (S k))) [] 0 with
      | None => None
      | Some (items', totalAmount', k') =>
          mockLoop zone random today count' (S i) k'
            (invoices ++
             [mkInvoice (invoiceId i) (if isSale then SALE else PURCHASE)
                        (toISODate date') items' totalAmount' None])
      end
  end.

Definition generateMockInvoices (zone : TimeZone) (random : nat -> Q)
    (today : Instant) : option (list Invoice) :=
  option_map (sortBy (fun a => newDate (date a)))
             (mockLoop zone random today 40 0 0 []).

(** What every generated line and invoice satisfies. *)
Definition lineOk (t : InvoiceType) (item : InvoiceItem) : Prop :=
  1 <= quantity item <= 5 /\
  0 < total item /\
  exists p,
    find (fun q => String.eqb (id q) (productId item)) INITIAL_PRODUCTS = Some p /\
    productName item = name p /\
    unitPrice item = (match t with SALE => price p | PURCHASE => cost p end) /\
    total item = quantity item * unitPrice item.

Definition invoiceOk (zone : TimeZone) (today : Instant) (inv : Invoice) : Prop :=
  (1 <= List.length (items inv) <= 3)%nat /\
  Forall (lineOk (type inv)) (items inv) /\
  totalAmount inv = fold_right Z.add 0 (map total (items inv)) /\
  0 < totalAmount inv /\
  (exists daysAgo,
     0 <= daysAgo <= 29 /\
     date inv
     = toISODate (today + offsetShift zone today (- daysAgo)) - daysAgo) /\
  toISODate today - 31 <= date inv <= toISODate today + 2 /\
  (steadyOver zone today (-29) 0 ->
   toISODate today - 29 <= date inv <= toISODate today) /\
  notes inv = None.

(** The draws are numbers of the interval from 0 (included) to 1 (excluded). *)
Definition unitDraws (random : nat -> Q) : Prop :=
  forall k, (0 <= random k)%Q /\ (random k < 1)%Q.

End Mock.

(** ** App.tsx: the catalog and the invoice history *)

Module App.

Record State := mkState {
  products : list Product;
  invoices : list Invoice
}.

(** The initial state; [MOCK_INVOICES] is generated at random on load, so
    the history the application starts from is an input. *)
Definition initial (MOCK_INVOICES : list Invoice) : State :=
  mkState INITIAL_PRODUCTS MOCK_INVOICES.

Definition handleAddProduct (st : State) (newProduct : Product) : State :=
  mkState (products st ++ [newProduct]) (invoices st).

Definition handleUpdateProduct (st : State) (updatedProduct : Product) : State :=
  mkState
    (map (fun p => if String.eqb (id p) (id updatedProduct) then updatedProduct else p)
         (products st))
    (invoices st).

Definition handleDeleteProduct (st : State) (id' : string) : State :=
  mkState (filter (fun p => negb (String.eqb (id p) id')) (products st)) (invoices st).

(** [{ ...p, currentStock: s }] *)
Definition withStock (p : Product) (s : Z) : Product :=
  mkProduct (id p) (name p) (category p) s (minStock p) (price p) (cost p)
            (lastRestocked p).

(** [{ ...p, currentStock: s, lastRestocked: d }] *)
Definition withRestock (p : Product) (s : Z) (d : ISODate) : Product :=
  mkProduct (id p) (name p) (category p) s (minStock p) (price p) (cost p) d.

(** The callback of [products.map] in [handleAddInvoice]. *)
Definition updateStock (newInvoice : Invoice) (p : Product) : Product :=
  match find (fun i => String.eqb (productId i) (id p)) (items newInvoice) with
  | Some itemInInvoice =>
      let quantityChange := quantity itemInInvoice in
      match type newInvoice with
      | SALE => withStock p (Z.max 0 (currentStock p - quantityChange))
      | PURCHASE =>
          withRestock p (currentStock p + quantityChange) (date newInvoice)
      end
  | None => p
  end.

Definition handleAddInvoice (st : State) (newInvoice : Invoice) : State :=
  mkState (map (updateStock newInvoice) (products st))
          (invoices st ++ [newInvoice]).

End App.

(** ** Billing: the invoice being composed *)

Module Billing.

Record State := mkState {
  invoiceType : InvoiceType;
  selectedProduct : string;
  currentQty : Z;
  currentItems : list InvoiceItem
}.

(** [arr.findIndex(f)], with [None] for -1. *)
Fixpoint findIndex {A : Type} (f : A -> bool) (l : list A) : option nat :=
  match l with
  | [] => None
  | x :: l' => if f x then Some O else option_map S (findIndex f l')
  end.

(** [arr[n] = f(arr[n])] on a copy of the array. *)
Fixpoint updateAt {A : Type} (n : nat) (f : A -> A) (l : list A) : list A :=
  match l, n with
  | [], _ => []
  | x :: l', O => f x :: l'
  | x :: l', S n' => x :: updateAt n' f l'
  end.

Definition handleAddItem (products : list Product) (bs : State) : State :=
  match find (fun p => String.eqb (id p) (selectedProduct bs)) products with
  | None => bs
  | Some product =>
      let unitPrice' :=
        match invoiceType bs with SALE => price product | PURCHASE => cost product end in
      let items' :=
        match findIndex (fun item => String.eqb (productId item) (id product))
                        (currentItems bs) with
        | Some existingItemIndex =>
            updateAt existingItemIndex
              (fun item =>
                 let quantity' := quantity item + currentQty bs in
                 mkInvoiceItem (productId item) (productName item) quantity'
                               (unitPrice item) (quantity' * unitPrice'))
              (currentItems bs)
        | None =>
            currentItems bs ++
            [mkInvoiceItem (id product) (name product) (currentQty bs) unitPrice'
                           (currentQty bs * unitPrice')]
        end in
      mkState (invoiceType bs) "" 1 items'
  end.

Definition handleRemoveItem (bs : State) (index : nat) : State :=
  mkState (invoiceType bs) (selectedProduct bs) (currentQty bs)
          (map snd
             (filter (fun ix => negb (Nat.eqb (fst ix) index))
                     (combine (seq 0 (List.length (currentItems bs))) (currentItems bs)))).

(** The invoice [handleSaveInvoice] builds from the composed items. *)
Definition buildInvoice (bs : State) (uuid : string) (now : Instant) : Invoice :=
  let totalAmount' := fold_left (fun sum item => sum + total item) (currentItems bs) 0 in
  mkInvoice uuid (invoiceType bs) (toISODate now) (currentItems bs) totalAmount' None.

(** [handleSaveInvoice]: returns at once on an empty list; otherwise hands
    the invoice to [onAddInvoice] and clears the composed items. *)
Definition handleSaveInvoice (app : App.State) (bs : State)
    (uuid : string) (now : Instant) : App.State * State :=
  match currentItems bs with
  | [] => (app, bs)
  | _ :: _ =>
      (App.handleAddInvoice app (buildInvoice bs uuid now),
       mkState (invoiceType bs) (selectedProduct bs) (currentQty bs) [])
  end.

(** [totalInvoice], the sum shown in the summary card. *)
Definition totalInvoice (bs : State) : Z :=
  fold_left (fun sum item => sum + total item) (currentItems bs) 0.

(** [sortedHistory]: a sorted copy of the history, latest date first. *)
Definition sortedHistory (invoices : list Invoice) : list Invoice :=
  sortBy (fun a => - newDate (date a)) invoices.

(** The state the component mounts with. *)
Definition initial : State := mkState SALE "" 1 [].

(** What the user can do on the "Nuevo Movimiento" tab before saving. *)
Inductive Event :=
| SelectProduct (value : string)
| TypeQuantity (value : Z)
| ChooseType (t : InvoiceType)
| ClickAdd
| ClickRemove (index : nat).

(** The handler wired to each event: [setSelectedProduct(e.target.value)];
    [setCurrentQty(Number(e.target.value))]; [setInvoiceType(t)] with
    [setCurrentItems([])]; [handleAddItem], the button being disabled while
    nothing is selected; [handleRemoveItem(index)]. *)
Definition handle (products : list Product) (bs : State) (ev : Event) : State :=
  match ev with
  | SelectProduct value =>
      mkState (invoiceType bs) value (currentQty bs) (currentItems bs)
  | TypeQuantity value =>
      mkState (invoiceType bs) (selectedProduct bs) value (currentItems bs)
  | ChooseType t => mkState t (selectedProduct bs) (currentQty bs) []
  | ClickAdd =>
      if String.eqb (selectedProduct bs) "" then bs
      else handleAddItem products bs
  | ClickRemove index => handleRemoveItem bs index
  end.

Definition session (products : list Product) (events : list Event) : State :=
  fold_left (handle products) events initial.

End Billing.

(** ** Inventory: the product form *)

Module Inventory.

(** The [Partial<Product>] under edit, as the modal's handlers build it:
    the numeric fields and the category are always present, the name is
    absent until typed, and the identifier and the restock date are present
    together, exactly when the form was opened on an existing product. *)
Record Editing := mkEditing {
  origin : option (string * ISODate);
  editName : option string;
  editCategory : string;
  editCurrentStock : Z;
  editMinStock : Z;
  editPrice : Z;
  editCost : Z
}.

Definition openAddModal : Editing :=
  mkEditing None None "General" 0 10 0 0.

Definition openEditModal (p : Product) : Editing :=
  mkEditing (Some (id p, lastRestocked p)) (Some (name p)) (category p)
            (currentStock p) (minStock p) (price p) (cost p).

(** The product of the Add branch: [x || d] replaces a falsy [x] by [d]. *)
Definition newProduct (e : Editing) (name' : string) (uuid : string)
    (now : Instant) : Product :=
  mkProduct uuid name'
    (if String.eqb (editCategory e) "" then "General" else editCategory e)
    (editCurrentStock e)
    (if editMinStock e =? 0 then 5 else editMinStock e)
    (editPrice e)
    (editCost e)
    (toISODate now).

Definition handleSave (app : App.State) (e : Editing)
    (uuid : string) (now : Instant) : App.State :=
  match editName e with
  | None => app
  | Some name' =>
      if String.eqb name' "" || (editPrice e =? 0) then app
      else
        match origin e with
        | Some (id', restocked) =>
            if String.eqb id' "" then
              App.handleAddProduct app (newProduct e name' uuid now)
            else
              App.handleUpdateProduct app
                (mkProduct id' name' (editCategory e) (editCurrentStock e)
                           (editMinStock e) (editPrice e) (editCost e) restocked)
        | None => App.handleAddProduct app (newProduct e name' uuid now)
        end
  end.

End Inventory.

(** ** Shared by the two charts *)

Definition rangeDays (timeRange : TimeRange) : Z :=
  match timeRange with WEEK => 7 | MONTH => 30 | YEAR => 365 end.

(** [cutoffDate]: a copy of [today] moved back by [rangeDays] days. *)
Definition cutoffDate (zone : TimeZone) (today : Instant) (timeRange : TimeRange)
    : Instant :=
  addDays zone today (- rangeDays timeRange).

(** [sum / n] on numbers. *)
Definition divide (sum : Z) (n : nat) : Q :=
  (inject_Z sum / inject_Z (Z.of_nat n))%Q.

(** [x + y] where [y] may be [null]: [null] counts as 0. *)
Definition orZero (y : option Z) : Z :=
  match y with Some v => v | None => 0 end.

(** [arr[arr.length - 1]], [None] on the empty array. *)
Fixpoint lastItem {A : Type} (l : list A) : option A :=
  match l with
  | [] => None
  | [x] => Some x
  | _ :: l' => lastItem l'
  end.

(** ** Dashboard: aggregate figures and the financial chart *)

Module Dashboard.

Definition lowStockProducts (products : list Product) : list Product :=
  filter (fun p => currentStock p <=? minStock p) products.

Definition totalInventoryCost (products : list Product) : Z :=
  fold_left (fun acc p => acc + currentStock p * cost p) products 0.

Definition totalPotentialRevenue (products : list Product) : Z :=
  fold_left (fun acc p => acc + currentStock p * price p) products 0.

Definition totalSales (invoices : list Invoice) : Z :=
  fold_left (fun acc i => acc + totalAmount i)
            (filter (fun i => isSale (type i)) invoices) 0.

Definition totalPurchases (invoices : list Invoice) : Z :=
  fold_left (fun acc i => acc + totalAmount i)
            (filter (fun i => isPurchase (type i)) invoices) 0.

Definition netProfit (invoices : list Invoice) : Z :=
  totalSales invoices - totalPurchases invoices.

Definition isProfitPositive (invoices : list Invoice) : bool :=
  0 <=? netProfit invoices.

(** A point of the financial chart; [None] is [null]. *)
Record ChartPoint := mkChartPoint {
  date : ISODate;
  sales : option Z;
  purchases : option Z;
  estimated : option Z
}.

(** [dataMap]: per date, the pair (sales, purchases) accumulated over the
    invoices sorted by date. *)
Definition dataMap (invoices : list Invoice) : DateMap (Z * Z) :=
  let sortedInvoices := sortBy (fun a => newDate (Types.date a)) invoices in
  fold_left
    (fun m inv =>
       let current :=
         match Map_get m (Types.date inv) with
         | Some c => c
         | None => (0, 0)
         end in
       let current' :=
         match type inv with
         | SALE => (fst current + totalAmount inv, snd current)
         | PURCHASE => (fst current, snd current + totalAmount inv)
         end in
       Map_set m (Types.date inv) current')
    sortedInvoices [].

(** [chartData] before the range filter: one point per date, by date. *)
Definition historical (invoices : list Invoice) : list ChartPoint :=
  sortBy (fun a => newDate (date a))
    (map (fun e : ISODate * (Z * Z) =>
            mkChartPoint (fst e) (Some (fst (snd e))) (Some (snd (snd e))) None)
         (dataMap invoices)).

(** [chartData] after the range filter. *)
Definition inRange (zone : TimeZone) (invoices : list Invoice)
    (timeRange : TimeRange) (today : Instant) : list ChartPoint :=
  filter (fun d => cutoffDate zone today timeRange <=? newDate (date d))
         (historical invoices).

(** [avgSales]: the mean of the sales of the last five points. *)
Definition avgSales (chartData : list ChartPoint) : Q :=
  let lastPoints := sliceLast 5 chartData in
  divide (fold_left (fun sum p => sum + orZero (sales p)) lastPoints 0)
         (List.length lastPoints).

(** The point pushed at iteration [i] of the projection loop. *)
Definition projected (zone : TimeZone) (avg : Q) (lastDate : Instant)
    (random : nat -> Q) (i : nat) : ChartPoint :=
  let trendFactor := (1 + (random (pred i) * (1 # 5) - (1 # 10)))%Q in
  let projectedValue := Math_round (avg * trendFactor)%Q in
  mkChartPoint (toISODate (addDays zone lastDate (Z.of_nat i))) None None
               (Some projectedValue).

(** The projection block, on the filtered [chartData]. *)
Definition project (zone : TimeZone) (chartData : list ChartPoint)
    (random : nat -> Q) : list ChartPoint :=
  if (2 <? List.length chartData)%nat then
    match lastItem chartData with
    | None => chartData
    | Some lastRealData =>
        let avg := avgSales chartData in
        let lastDate := newDate (date lastRealData) in
        updateLast
          (fun p => mkChartPoint (date p) (sales p) (purchases p) (sales p))
          chartData
        ++ map (projected zone avg lastDate random) (seq 1 5)
    end
  else chartData.

Definition generateChartData (zone : TimeZone) (invoices : list Invoice)
    (timeRange : TimeRange) (today : Instant) (random : nat -> Q)
    : list ChartPoint :=
  project zone (inRange zone invoices timeRange today) random.

(** [s.split(' ')[0]]: the text before the first space. *)
Fixpoint firstWord (s : string) : string :=
  match s with
  | EmptyString => EmptyString
  | String c s' =>
      if Ascii.eqb c " "%char then EmptyString else String c (firstWord s')
  end.

(** A bar of the stock chart. *)
Record StockBar := mkStockBar {
  barName : string;
  stock : Z;
  min : Z
}.

Definition inventoryChartData (products : list Product) : list StockBar :=
  map (fun p => mkStockBar (firstWord (name p)) (currentStock p) (minStock p))
      products.

End Dashboard.

(** ** ProductAnalytics: the per-product chart *)

Module ProductAnalytics.

Definition productInvoices (invoices : list Invoice) (selectedProductId : string)
    : list Invoice :=
  filter (fun inv =>
            existsb (fun item => String.eqb (productId item) selectedProductId)
                    (items inv))
         invoices.

(** [inv.items.find(i => i.productId === selectedProductId)?.quantity || 0] *)
Definition quantityOf (inv : Invoice) (selectedProductId : string) : Z :=
  match find (fun i => String.eqb (productId i) selectedProductId) (items inv) with
  | Some i => quantity i
  | None => 0
  end.

Definition totalOf (inv : Invoice) (selectedProductId : string) : Z :=
  match find (fun i => String.eqb (productId i) selectedProductId) (items inv) with
  | Some i => total i
  | None => 0
  end.

Definition totalSold (invoices : list Invoice) (selectedProductId : string) : Z :=
  fold_left (fun acc inv => acc + quantityOf inv selectedProductId)
    (filter (fun inv => isSale (type inv))
            (productInvoices invoices selectedProductId)) 0.

Definition totalRevenue (invoices : list Invoice) (selectedProductId : string) : Z :=
  fold_left (fun acc inv => acc + totalOf inv selectedProductId)
    (filter (fun inv => isSale (type inv))
            (productInvoices invoices selectedProductId)) 0.

(** A point of the product chart; [None] is [null]. *)
Record ChartPoint := mkChartPoint {
  date : ISODate;
  real : option Z;
  estimated : option Z
}.

(** [rawMap]: per date, the quantity sold of the selected product. *)
Definition rawMap (invoices : list Invoice) (selectedProductId : string)
    : DateMap Z :=
  fold_left
    (fun m inv =>
       match type inv with
       | SALE =>
           let qty := quantityOf inv selectedProductId in
           Map_set m (Types.date inv) (orZero (Map_get m (Types.date inv)) + qty)
       | PURCHASE => m
       end)
    (productInvoices invoices selectedProductId) [].

(** [data] before the range filter. *)
Definition historical (invoices : list Invoice) (selectedProductId : string)
    : list ChartPoint :=
  sortBy (fun a => newDate (date a))
    (map (fun e : ISODate * Z => mkChartPoint (fst e) (Some (snd e)) None)
         (rawMap invoices selectedProductId)).

(** [data] after the range filter. *)
Definition inRange (zone : TimeZone) (invoices : list Invoice)
    (selectedProductId : string) (timeRange : TimeRange) (today : Instant)
    : list ChartPoint :=
  filter (fun d => cutoffDate zone today timeRange <=? newDate (date d))
         (historical invoices selectedProductId).

(** [avgSales]: the mean of the quantities in the visible range. *)
Definition avgSales (data : list ChartPoint) : Q :=
  divide (fold_left (fun acc curr => acc + orZero (real curr)) data 0)
         (List.length data).

(** The point pushed at iteration [i] of the forecast loop. *)
Definition projected (zone : TimeZone) (avg : Q) (lastDate : Instant)
    (random : nat -> Q) (i : nat) : ChartPoint :=
  let variance := (random (pred i) * 2 - 1)%Q in
  let nextVal := Z.max 0 (Math_round (avg + variance)%Q) in
  mkChartPoint (toISODate (addDays zone lastDate (Z.of_nat i))) None (Some nextVal).

(** The projection block, on the filtered [data]. *)
Definition project (zone : TimeZone) (data : list ChartPoint)
    (random : nat -> Q) : list ChartPoint :=
  if (1 <? List.length data)%nat then
    match lastItem data with
    | None => data
    | Some lastItem' =>
        let avg := avgSales data in
        let lastDate := newDate (date lastItem') in
        updateLast (fun p => mkChartPoint (date p) (real p) (real p)) data
        ++ map (projected zone avg lastDate random) (seq 1 4)
    end
  else data.

Definition generateChartData (zone : TimeZone) (invoices : list Invoice)
    (selectedProductId : string) (timeRange : TimeRange) (today : Instant)
    (random : nat -> Q) : list ChartPoint :=
  project zone (inRange zone invoices selectedProductId timeRange today) random.

End ProductAnalytics.

(** ** The ledger as a transition system *)

Module Ledger.

(** The operations the catalog and history can undergo: the four handlers
    [App] passes down to [Inventory] and [Billing]. *)
Inductive Op :=
| AddProduct (newProduct : Product)
| UpdateProduct (updatedProduct : Product)
| DeleteProduct (id' : string)
| RecordTransaction (newInvoice : Invoice).

Definition step (st : App.State) (op : Op) : App.State :=
  match op with
  | AddProduct p => App.handleAddProduct st p
  | UpdateProduct p => App.handleUpdateProduct st p
  | DeleteProduct i => App.handleDeleteProduct st i
  | RecordTransaction inv => App.handleAddInvoice st inv
  end.

Definition run (ops : list Op) (st : App.State) : App.State :=
  fold_left step ops st.

Definition stockNonNegative (st : App.State) : Prop :=
  Forall (fun p => 0 <= currentStock p) (App.products st).

(** Operations that carry no negative stock of their own: a product handed
    to add or update has a stock of at least 0, and the lines of a PURCHASE
    have quantities of at least 0.  A SALE is never restricted. *)
Definition admissible (op : Op) : Prop :=
  match op with
  | AddProduct p | UpdateProduct p => 0 <= currentStock p
  | DeleteProduct _ => True
  | RecordTransaction inv =>
      type inv = PURCHASE -> Forall (fun i => 0 <= quantity i) (items inv)
  end.

(** The product-id of a line item resolves in the catalog. *)
Definition resolves (products : list Product) (item : InvoiceItem) : bool :=
  existsb (fun p => String.eqb (id p) (productId item)) products.

(** The effect of one line item on a product, by invoice type. *)
Definition applyItem (inv : Invoice) (i : InvoiceItem) (p : Product) : Product :=
  match type inv with
  | SALE => App.withStock p (Z.max 0 (currentStock p - quantity i))
  | PURCHASE => App.withRestock p (currentStock p + quantity i) (date inv)
  end.

(** [inv] with another list of items. *)
Definition withItems (inv : Invoice) (l : list InvoiceItem) : Invoice :=
  mkInvoice (inv_id inv) (type inv) (date inv) l (totalAmount inv) (notes inv).

(** The sum of [totalAmount] over the invoices of type [t], in one pass. *)
Fixpoint sumOfType (t : InvoiceType) (l : list Invoice) : Z :=
  match l with
  | [] => 0
  | i :: l' =>
      match type i, t with
      | SALE, SALE | PURCHASE, PURCHASE => totalAmount i + sumOfType t l'
      | _, _ => sumOfType t l'
      end
  end.

End Ledger.

(** ** The chart rules in the words of the specification *)

Module Series.

(** The calendar day of "today". *)
Definition todayDate (today : Instant) : ISODate := toISODate today.

(** The dates the range filter keeps, at day granularity: those after the
    day [rangeDays] before today, and that day itself only when [today] is
    exactly midnight UTC. *)
Definition withinWindow (today : Instant) (timeRange : TimeRange) (d : ISODate)
    : bool :=
  if today mod msPerDay =? 0
  then todayDate today - rangeDays timeRange <=? d
  else todayDate today - rangeDays timeRange <? d.

(** The mean of a list of values. *)
Definition mean (values : list Z) : Q :=
  divide (fold_right Z.add 0 values) (List.length values).

(** The last [n] elements of a list, all of them when it has fewer. *)
Definition lastUpTo {A : Type} (n : nat) (l : list A) : list A :=
  rev (firstn n (rev l)).

Definition isSome {A : Type} (o : option A) : bool :=
  match o with Some _ => true | None => false end.

(** A series carries a projection when some point has a projected value. *)
Definition financialProjection (out : list Dashboard.ChartPoint) : bool :=
  existsb (fun pt => isSome (Dashboard.estimated pt)) out.

Definition productProjection (out : list ProductAnalytics.ChartPoint) : bool :=
  existsb (fun pt => isSome (ProductAnalytics.estimated pt)) out.

(** The sales figures of financial points, the quantities of product points. *)
Definition salesOf (l : list Dashboard.ChartPoint) : list Z :=
  map (fun pt => orZero (Dashboard.sales pt)) l.

Definition realOf (l : list ProductAnalytics.ChartPoint) : list Z :=
  map (fun pt => orZero (ProductAnalytics.real pt)) l.

(** [Math.random()] returns a number of the interval from 0 (included)
    to 1 (excluded). *)
Definition unitDraws (random : nat -> Q) : Prop :=
  forall k, (0 <= random k)%Q /\ (random k < 1)%Q.


(** The instant rule of the range filter, spelt out: the date, taken at
    midnight UTC, is not before the current instant moved back by the window
    and by the change of the zone's offset over the window. *)
Definition keptDate (zone : TimeZone) (today : Instant) (timeRange : TimeRange)
    (d : ISODate) : bool :=
  today - rangeDays timeRange * msPerDay
  + offsetShift zone today (- rangeDays timeRange)
  <=? d * msPerDay.

(** The date of the point pushed at iteration [i] after a join point dated
    [d]: [i] days later, moved by the whole days that the change of the
    zone's offset amounts to (0 when the offset does not change, -1 when it
    grows, as at the start of daylight saving time west of Greenwich). *)
Definition projectedDate (zone : TimeZone) (d : ISODate) (i : nat) : ISODate :=
  d + Z.of_nat i + offsetShift zone (newDate d) (Z.of_nat i) / msPerDay.






End Series.

(** ** Sample data: the documented example scenarios and a few edge inputs *)

Module Sample.

Definition day : ISODate := isoDate 2024 3 10.

(** Noon (UTC) of [day]. *)
Definition noon : Instant := newDate day + 12 * 3600000.

Definition shop : App.State := App.initial [].

Definition milkSale : Invoice :=
  mkInvoice "inv-a" SALE day
    [mkInvoiceItem "1" "Leche Entera 1L" 5 1200 6000] 6000 None.

Definition milkPurchase : Invoice :=
  mkInvoice "inv-b" PURCHASE day
    [mkInvoiceItem "1" "Leche Entera 1L" 30 800 24000] 24000 None.

(** Two lines for the same product. *)
Definition doubleSale : Invoice :=
  mkInvoice "inv-c" SALE day
    [mkInvoiceItem "1" "Leche Entera 1L" 5 1200 6000;
     mkInvoiceItem "1" "Leche Entera 1L" 4 1200 4800] 10800 None.

Definition emptyCart : Billing.State := Billing.mkState SALE "" 1 [].

Definition debtProduct : Product :=
  mkProduct "9" "Te Verde" "General" (-3) 5 900 600 day.

Definition debtForm : Inventory.Editing :=
  Inventory.mkEditing None (Some "Te Verde") "General" (-3) 5 900 600.

Definition negativePurchase : Invoice :=
  mkInvoice "inv-n" PURCHASE day
    [mkInvoiceItem "1" "Leche Entera 1L" (-20) 800 (-16000)] (-16000) None.

(** A sale of [qty] units of product 1 on day [d]. *)
Definition saleOn (d : ISODate) (qty : Z) : Invoice :=
  mkInvoice "inv-s" SALE d
    [mkInvoiceItem "1" "Leche Entera 1L" qty 1200 (qty * 1200)] (qty * 1200) None.

Definition twoDays : list Invoice := [saleOn day 5; saleOn (day + 1) 3].

Definition threeDays : list Invoice :=
  [saleOn day 5; saleOn (day + 1) 3; saleOn (day + 2) 4].

(** Every draw of the random source is one half. *)
Definition half : nat -> Q := fun _ => (1 # 2)%Q.




Definition milk : Product :=
  mkProduct "1" "Leche Entera 1L" "Lácteos" 12 20 1200 800 (isoDate 2023 10 20).

Definition bread : Product :=
  mkProduct "2" "Pan de Molde Blanco" "Panadería" 5 15 2500 1800 (isoDate 2023 10 22).

Definition milkLine : InvoiceItem := mkInvoiceItem "1" "Leche Entera 1L" 5 1200 6000.

(** A sale of more milk than the shelf holds. *)
Definition oversell : Invoice :=
  mkInvoice "inv-o" SALE day
    [mkInvoiceItem "1" "Leche Entera 1L" 100 1200 120000] 120000 None.

Definition tea : Product := mkProduct "9" "Te Verde" "General" 4 5 900 600 day.

(** A day of admissible operations. *)
Definition busyDay : list Ledger.Op :=
  [ Ledger.AddProduct tea;
    Ledger.RecordTransaction milkSale;
    Ledger.RecordTransaction milkPurchase;
    Ledger.UpdateProduct (App.withStock bread 0);
    Ledger.DeleteProduct "3";
    Ledger.RecordTransaction oversell ].

(** America/Santiago in 2024: UTC-3 until 7 April 03:00 UTC, UTC-4 until
    8 September 04:00 UTC, UTC-3 afterwards.  Read from the wall clock: the
    hour repeated in April and the hour skipped in September take the offset
    before the transition. *)
Definition hour : Z := 3600000.

Definition santiago : TimeZone :=
  mkTimeZone
    (fun t =>
       if t <? newDate (isoDate 2024 4 7) + 3 * hour then -3 * hour
       else if t <? newDate (isoDate 2024 9 8) + 4 * hour then -4 * hour
       else -3 * hour)
    (fun l =>
       if l <? newDate (isoDate 2024 4 7) then -3 * hour
       else if l <? newDate (isoDate 2024 9 8) + 1 * hour then -4 * hour
       else -3 * hour)
    ltac:(intros t; cbv beta;
          destruct (t <? newDate (isoDate 2024 4 7) + 3 * hour);
          [|destruct (t <? newDate (isoDate 2024 9 8) + 4 * hour)];
          split; reflexivity)
    ltac:(intros l; cbv beta;
          destruct (l <? newDate (isoDate 2024 4 7));
          [|destruct (l <? newDate (isoDate 2024 9 8) + 1 * hour)];
          split; reflexivity).



Definition aprilNight : Instant := newDate (isoDate 2024 4 10) + hour / 2.

End Sample.

(** ** Notions used to state further properties of the catalog *)

Module Catalog.

(** The invoices a sequence of operations records, in order. *)
Definition recorded (ops : list Ledger.Op) : list Invoice :=
  flat_map (fun op =>
              match op with
              | Ledger.RecordTransaction inv => [inv]
              | _ => []
              end) ops.

(** What recording an invoice is never seen to touch in a product. *)
Definition fixedPart (p : Product) : string * string * string * Z * Z * Z :=
  (id p, name p, category p, minStock p, price p, cost p).

(** The product with its stock multiplied by [k]. *)
Definition scaleStock (k : Z) (p : Product) : Product :=
  App.withStock p (k * currentStock p).

Definition nonNegativeQuantities (inv : Invoice) : Prop :=
  Forall (fun i => 0 <= quantity i) (items inv).

End Catalog.

(** ** Notions used to state properties of the composed invoice *)

Module Cart.

(** The unit price a line takes from its product, by invoice type. *)
Definition unitPriceOf (t : InvoiceType) (p : Product) : Z :=
  match t with SALE => price p | PURCHASE => cost p end.

(** A line is a snapshot of the catalog: its productId resolves to a
    product whose name and unit price it carries, and its total is its
    quantity times that price. *)
Definition snapshotOf (products : list Product) (t : InvoiceType)
    (item : InvoiceItem) : Prop :=
  exists p,
    find (fun q => String.eqb (id q) (productId item)) products = Some p /\
    productName item = name p /\
    unitPrice item = unitPriceOf t p /\
    total item = quantity item * unitPrice item.

Definition wellFormed (products : list Product) (t : InvoiceType)
    (l : list InvoiceItem) : Prop :=
  NoDup (map productId l) /\ Forall (snapshotOf products t) l.

(** The quantity the lines hold of a product. *)
Fixpoint quantityIn (l : list InvoiceItem) (pid : string) : Z :=
  match l with
  | [] => 0
  | i :: l' =>
      if String.eqb (productId i) pid then quantity i + quantityIn l' pid
      else quantityIn l' pid
  end.

End Cart.

(** ** Notions used to state properties of the chart series *)

Module Chart.

(** Dates in strictly ascending order. *)
Definition strictlyAscending (dates : list ISODate) : Prop :=
  StronglySorted Z.lt dates.

Definition total (values : list Z) : Z := fold_right Z.add 0 values.

(** The purchase figures of financial points. *)
Definition purchasesOf (l : list Dashboard.ChartPoint) : list Z :=
  map (fun pt => orZero (Dashboard.purchases pt)) l.

(** The invoice is a SALE with a line for the product. *)
Definition sells (selectedProductId : string) (inv : Invoice) : Prop :=
  type inv = SALE /\
  exists i, In i (items inv) /\ productId i = selectedProductId.

(** What an invoice contributes to the sales, to the purchases, and to the
    quantity sold of a product. *)
Definition saleAmount (inv : Invoice) : Z :=
  match type inv with SALE => totalAmount inv | PURCHASE => 0 end.

Definition purchaseAmount (inv : Invoice) : Z :=
  match type inv with SALE => 0 | PURCHASE => totalAmount inv end.

Definition soldQuantity (selectedProductId : string) (inv : Invoice) : Z :=
  match type inv with
  | SALE => ProductAnalytics.quantityOf inv selectedProductId
  | PURCHASE => 0
  end.

End Chart.

(** * Properties of the ledger *)

Section ListFacts.

Context {A : Type}.

Lemma find_first (f : A -> bool) (l1 l2 : list A) (x : A) :
  f x = true ->
  (forall y, In y l1 -> f y = false) ->
  find f (l1 ++ x :: l2) = Some x.
Proof.
  intros Hx Hl1. induction l1 as [|y l1 IH]; simpl.
  - now rewrite Hx.
  - rewrite (Hl1 y (or_introl eq_refl)). apply IH.
    intros z Hz. apply Hl1. now right.
Qed.

Lemma find_absent (f : A -> bool) (l : list A) :
  (forall y, In y l -> f y = false) -> find f l = None.
Proof.
  induction l as [|y l IH]; simpl; intros H; [reflexivity|].
  rewrite (H y (or_introl eq_refl)). apply IH. intros z Hz. apply H. now right.
Qed.

Lemma find_filter (f g : A -> bool) (l : list A) :
  (forall y, f y = true -> g y = true) ->
  find f (filter g l) = find f l.
Proof.
  intros Hfg. induction l as [|y l IH]; simpl; [reflexivity|].
  destruct (g y) eqn:Hg; simpl.
  - destruct (f y); [reflexivity | exact IH].
  - destruct (f y) eqn:Hf; [|exact IH].
    rewrite (Hfg y Hf) in Hg. discriminate.
Qed.

Lemma fold_left_add_shift (g : A -> Z) (l : list A) (a : Z) :
  fold_left (fun acc x => acc + g x) l a =
  a + fold_left (fun acc x => acc + g x) l 0.
Proof.
  revert a. induction l as [|x l IH]; intros a; cbn [fold_left]; [lia|].
  rewrite (IH (a + g x)), (IH (0 + g x)). lia.
Qed.

End ListFacts.

Lemma unique_item_is_first (l : list InvoiceItem) (i : InvoiceItem) :
  NoDup (map productId l) -> In i l ->
  exists l1 l2, l = l1 ++ i :: l2 /\
                forall j, In j l1 -> productId j <> productId i.
Proof.
  intros Hnd Hin. destruct (in_split _ _ Hin) as (l1 & l2 & ->).
  exists l1, l2. split; [reflexivity|].
  intros j Hj Heq. rewrite map_app in Hnd. simpl in Hnd.
  apply NoDup_remove_2 in Hnd. apply Hnd.
  apply in_or_app. left. rewrite <- Heq. now apply in_map.
Qed.

Lemma updateStock_first (inv : Invoice) (p : Product) l1 i l2 :
  items inv = l1 ++ i :: l2 ->
  productId i = id p ->
  (forall j, In j l1 -> productId j <> id p) ->
  App.updateStock inv p = Ledger.applyItem inv i p.
Proof.
  intros Hit Hi Hl1. unfold App.updateStock, Ledger.applyItem.
  rewrite Hit, find_first; [reflexivity | |].
  - now apply String.eqb_eq.
  - intros j Hj. apply String.eqb_neq. now apply Hl1.
Qed.

Lemma updateStock_unreferenced (inv : Invoice) (p : Product) :
  (forall i, In i (items inv) -> productId i <> id p) ->
  App.updateStock inv p = p.
Proof.
  intros H. unfold App.updateStock. rewrite find_absent; [reflexivity|].
  intros j Hj. apply String.eqb_neq. now apply H.
Qed.

Lemma nth_error_handleAddInvoice (st : App.State) (inv : Invoice) (k : nat) :
  nth_error (App.products (App.handleAddInvoice st inv)) k =
  option_map (App.updateStock inv) (nth_error (App.products st) k).
Proof. unfold App.handleAddInvoice; simpl. apply nth_error_map. Qed.

(** ** The embedding on the documented examples *)

Example isoDate_epoch : isoDate 1970 1 1 = 0 /\ isoDate 2023 10 20 = 19650.
Proof. split; reflexivity. Qed.

Example sale_then_purchase_of_milk :
  let afterSale := App.handleAddInvoice Sample.shop Sample.milkSale in
  let afterPurchase := App.handleAddInvoice afterSale Sample.milkPurchase in
  map currentStock (firstn 1 (App.products afterSale)) = [7] /\
  existsb (fun p => String.eqb (id p) "1")
          (Dashboard.lowStockProducts (App.products afterSale)) = true /\
  map currentStock (firstn 1 (App.products afterPurchase)) = [37] /\
  map lastRestocked (firstn 1 (App.products afterPurchase)) = [Sample.day] /\
  existsb (fun p => String.eqb (id p) "1")
          (Dashboard.lowStockProducts (App.products afterPurchase)) = false.
Proof. cbv zeta. repeat split; reflexivity. Qed.

Example sales_5000_purchases_2000 :
  let history :=
    [mkInvoice "a" SALE Sample.day [] 5000 None;
     mkInvoice "b" PURCHASE Sample.day [] 2000 None] in
  Dashboard.totalSales history = 5000 /\
  Dashboard.totalPurchases history = 2000 /\
  Dashboard.netProfit history = 3000.
Proof. cbv zeta. repeat split; reflexivity. Qed.

Example oversell_is_clamped :
  map currentStock
      (firstn 1 (App.products (App.handleAddInvoice Sample.shop Sample.oversell)))
  = [0].
Proof. reflexivity. Qed.

Example composing_the_same_product_twice_merges_the_lines :
  let cart := Billing.mkState SALE "1" 5 [] in
  let once := Billing.handleAddItem INITIAL_PRODUCTS cart in
  let again :=
    Billing.handleAddItem INITIAL_PRODUCTS
      (Billing.mkState SALE "1" 4 (Billing.currentItems once)) in
  Billing.currentItems again = [mkInvoiceItem "1" "Leche Entera 1L" 9 1200 10800].
Proof. reflexivity. Qed.

(** ** Recording a transaction *)

(** C1. When every product is referenced by at most one line item of the
    invoice, a product referenced by item [i] has, after the invoice is
    recorded, the stock [max 0 (before - quantity i)] for a SALE (oversell
    is clamped, not refused), and [before + quantity i] with [lastRestocked]
    set to the invoice date for a PURCHASE. *)
Theorem stock_after_transaction
    (st : App.State) (inv : Invoice) (k : nat) (p : Product) (i : InvoiceItem) :
  NoDup (map productId (items inv)) ->
  nth_error (App.products st) k = Some p ->
  In i (items inv) ->
  productId i = id p ->
  exists p',
    nth_error (App.products (App.handleAddInvoice st inv)) k = Some p' /\
    id p' = id p /\
    match type inv with
    | SALE => currentStock p' = Z.max 0 (currentStock p - quantity i)
    | PURCHASE =>
        currentStock p' = currentStock p + quantity i /\
        lastRestocked p' = date inv
    end.
Proof.
  intros Hnd Hk Hin Hid.
  destruct (unique_item_is_first _ _ Hnd Hin) as (l1 & l2 & Hit & Hl1).
  rewrite Hid in Hl1.
  exists (Ledger.applyItem inv i p).
  rewrite nth_error_handleAddInvoice, Hk. cbn [option_map].
  rewrite (updateStock_first inv p l1 i l2 Hit Hid Hl1).
  unfold Ledger.applyItem. destruct (type inv); cbn; auto.
Qed.

(** C9. When several line items carry the same productId, the first one
    alone decides the product's new stock: whatever follows it in the list,
    duplicates included, the product's stock becomes
    max 0 (before - quantity of the first item) for a SALE, and
    before + quantity of the first item, with lastRestocked set to the
    invoice date, for a PURCHASE; its other fields stay as they were; and
    the result is the same for any other items after the first one. *)
Theorem duplicate_items_first_wins
    (st : App.State) (inv : Invoice) (k : nat) (p : Product)
    (l1 l2 : list InvoiceItem) (i : InvoiceItem) :
  items inv = l1 ++ i :: l2 ->
  productId i = id p ->
  (forall j, In j l1 -> productId j <> id p) ->
  nth_error (App.products st) k = Some p ->
  exists p',
    nth_error (App.products (App.handleAddInvoice st inv)) k = Some p' /\
    Catalog.fixedPart p' = Catalog.fixedPart p /\
    match type inv with
    | SALE =>
        currentStock p' = Z.max 0 (currentStock p - quantity i) /\
        lastRestocked p' = lastRestocked p
    | PURCHASE =>
        currentStock p' = currentStock p + quantity i /\
        lastRestocked p' = date inv
    end /\
    forall l2',
      nth_error
        (App.products
           (App.handleAddInvoice st (Ledger.withItems inv (l1 ++ i :: l2')))) k
      = Some p'.
Proof.
  intros Hit Hid Hl1 Hk.
  assert (H1 : nth_error (App.products (App.handleAddInvoice st inv)) k
               = Some (Ledger.applyItem inv i p)).
  { rewrite nth_error_handleAddInvoice, Hk. cbn [option_map].
    now rewrite (updateStock_first inv p l1 i l2 Hit Hid Hl1). }
  exists (Ledger.applyItem inv i p). split; [exact H1|]. split; [|split].
  - unfold Ledger.applyItem. now destruct (type inv).
  - unfold Ledger.applyItem. destruct (type inv); cbn; auto.
  - intros l2'. rewrite nth_error_handleAddInvoice, Hk. cbn [option_map].
    now rewrite (updateStock_first (Ledger.withItems inv (l1 ++ i :: l2')) p
                   l1 i l2' eq_refl Hid Hl1).
Qed.

(** C10. Recording an invoice appends it to the history and changes nothing
    else there; the catalog keeps its length and order, and a product whose
    id is the productId of no line item is left as it was, in every field. *)
Theorem unreferenced_products_and_history_unchanged
    (st : App.State) (inv : Invoice) :
  App.invoices (App.handleAddInvoice st inv) = App.invoices st ++ [inv] /\
  List.length (App.products (App.handleAddInvoice st inv))
    = List.length (App.products st) /\
  forall k p,
    nth_error (App.products st) k = Some p ->
    (forall i, In i (items inv) -> productId i <> id p) ->
    nth_error (App.products (App.handleAddInvoice st inv)) k = Some p.
Proof.
  split; [reflexivity|]. split.
  - unfold App.handleAddInvoice; simpl. apply length_map.
  - intros k p Hk Hno. rewrite nth_error_handleAddInvoice, Hk. cbn [option_map].
    now rewrite updateStock_unreferenced.
Qed.

(** C8. Deleting a product leaves the invoice history as it is: an invoice
    that references the deleted product stays at its place, with the same
    line items, hence the same productName and unitPrice snapshots. *)
Theorem delete_product_keeps_invoices
    (st : App.State) (k : nat) (inv : Invoice) (p : Product) :
  In p (App.products st) ->
  nth_error (App.invoices st) k = Some inv ->
  (exists i, In i (items inv) /\ productId i = id p) ->
  App.invoices (App.handleDeleteProduct st (id p)) = App.invoices st /\
  nth_error (App.invoices (App.handleDeleteProduct st (id p))) k = Some inv /\
  ~ In p (App.products (App.handleDeleteProduct st (id p))).
Proof.
  intros Hp Hk _. split; [reflexivity|]. split; [exact Hk|].
  unfold App.handleDeleteProduct; simpl. intros Hin.
  apply filter_In in Hin. destruct Hin as [_ Hneq].
  rewrite String.eqb_refl in Hneq. discriminate.
Qed.

(** ** Aggregate figures *)

Lemma fold_total_sumOfType (t : InvoiceType) (f : Invoice -> bool) (l : list Invoice) :
  (forall i, f i = true <-> type i = t) ->
  fold_left (fun acc i => acc + totalAmount i) (filter f l) 0 = Ledger.sumOfType t l.
Proof.
  intros Hf. induction l as [|i l IH]; [reflexivity|].
  cbn [filter Ledger.sumOfType]. destruct (f i) eqn:Hfi.
  - apply Hf in Hfi. cbn [fold_left]. rewrite fold_left_add_shift, IH, Hfi.
    destruct t; lia.
  - rewrite IH. destruct (type i) eqn:Hty, t; try reflexivity;
      (assert (Hc : f i = true) by (apply Hf; exact Hty)); congruence.
Qed.

(** C3. For every catalog and history, netProfit is totalSales minus
    totalPurchases, totalSales being the sum of totalAmount over the SALE
    invoices and totalPurchases that over the PURCHASE invoices. *)
Theorem netProfit_is_sales_minus_purchases (st : App.State) :
  Dashboard.netProfit (App.invoices st)
    = Dashboard.totalSales (App.invoices st)
      - Dashboard.totalPurchases (App.invoices st) /\
  Dashboard.totalSales (App.invoices st)
    = Ledger.sumOfType SALE (App.invoices st) /\
  Dashboard.totalPurchases (App.invoices st)
    = Ledger.sumOfType PURCHASE (App.invoices st).
Proof.
  split; [reflexivity|]. split.
  - apply fold_total_sumOfType. intros i. destruct (type i); simpl; split; congruence.
  - apply fold_total_sumOfType. intros i. destruct (type i); simpl; split; congruence.
Qed.

(** ** Validation at commit *)

Lemma resolves_of_match (products : list Product) (p : Product) (i : InvoiceItem) :
  In p products ->
  String.eqb (productId i) (id p) = true ->
  Ledger.resolves products i = true.
Proof.
  intros Hp Hi. unfold Ledger.resolves. apply existsb_exists.
  exists p. split; [exact Hp|].
  apply String.eqb_eq in Hi. apply String.eqb_eq. now symmetry.
Qed.

Lemma unresolved_items_are_inert (st : App.State) (inv : Invoice) :
  App.products (App.handleAddInvoice st inv)
  = App.products
      (App.handleAddInvoice st
         (Ledger.withItems inv
            (filter (Ledger.resolves (App.products st)) (items inv)))).
Proof.
  unfold App.handleAddInvoice; cbn [App.products].
  apply map_ext_in. intros p Hp. unfold App.updateStock.
  cbn [items type date Ledger.withItems].
  rewrite find_filter; [reflexivity|].
  intros i Hi. now apply (resolves_of_match _ p).
Qed.

(** ** Stock is never negative, for admissible operations *)

Lemma initial_stock_nonneg : Forall (fun p => 0 <= currentStock p) INITIAL_PRODUCTS.
Proof. unfold INITIAL_PRODUCTS. repeat constructor; cbn; lia. Qed.

Lemma updateStock_nonneg (inv : Invoice) (p : Product) :
  (type inv = PURCHASE -> Forall (fun i => 0 <= quantity i) (items inv)) ->
  0 <= currentStock p ->
  0 <= currentStock (App.updateStock inv p).
Proof.
  intros Hq Hp. unfold App.updateStock.
  destruct (find _ (items inv)) as [i|] eqn:Hf; [|exact Hp].
  destruct (type inv) eqn:Hty; cbn.
  - apply Z.le_max_l.
  - apply find_some in Hf. destruct Hf as [Hin _].
    specialize (Hq eq_refl). rewrite Forall_forall in Hq.
    specialize (Hq i Hin). cbn in Hq. lia.
Qed.

Lemma step_keeps_stock_nonneg (st : App.State) (op : Ledger.Op) :
  Ledger.admissible op ->
  Ledger.stockNonNegative st ->
  Ledger.stockNonNegative (Ledger.step st op).
Proof.
  unfold Ledger.stockNonNegative. intros Hop Hst.
  destruct op as [p|p|i|inv]; cbn in *.
  - apply Forall_app. split; [exact Hst | now constructor].
  - apply Forall_forall. intros q Hq. apply in_map_iff in Hq.
    destruct Hq as (q0 & <- & Hq0).
    destruct (String.eqb (id q0) (id p)); [exact Hop|].
    rewrite Forall_forall in Hst. now apply Hst.
  - apply Forall_forall. intros q Hq. apply filter_In in Hq.
    rewrite Forall_forall in Hst. now apply Hst.
  - apply Forall_forall. intros q Hq. apply in_map_iff in Hq.
    destruct Hq as (q0 & <- & Hq0). apply updateStock_nonneg; [exact Hop|].
    rewrite Forall_forall in Hst. now apply Hst.
Qed.

Lemma run_keeps_stock_nonneg (ops : list Ledger.Op) (st : App.State) :
  Forall Ledger.admissible ops ->
  Ledger.stockNonNegative st ->
  Ledger.stockNonNegative (Ledger.run ops st).
Proof.
  revert st. induction ops as [|op ops IH]; intros st Hops Hst; [exact Hst|].
  inversion Hops; subst. cbn. apply IH; [assumption|].
  now apply step_keeps_stock_nonneg.
Qed.

(** The form and the billing screen act on the ledger through these
    operations only; the form hands over the stock it holds, unclamped. *)
Lemma handleSave_is_ledger_step
    (app : App.State) (e : Inventory.Editing) (uuid : string) (now : Instant) :
  Inventory.handleSave app e uuid now = app \/
  exists p,
    currentStock p = Inventory.editCurrentStock e /\
    (Inventory.handleSave app e uuid now = Ledger.step app (Ledger.AddProduct p) \/
     Inventory.handleSave app e uuid now = Ledger.step app (Ledger.UpdateProduct p)).
Proof.
  unfold Inventory.handleSave.
  destruct (Inventory.editName e) as [name'|]; [|now left].
  destruct (String.eqb name' "" || (Inventory.editPrice e =? 0)); [now left|].
  right. destruct (Inventory.origin e) as [[id' restocked]|].
  - destruct (String.eqb id' "").
    + eexists. split; [|left; reflexivity]. reflexivity.
    + eexists. split; [|right; reflexivity]. reflexivity.
  - eexists. split; [|left; reflexivity]. reflexivity.
Qed.

Lemma handleSaveInvoice_is_ledger_step
    (app : App.State) (bs : Billing.State) (uuid : string) (now : Instant) :
  fst (Billing.handleSaveInvoice app bs uuid now) = app \/
  fst (Billing.handleSaveInvoice app bs uuid now)
  = Ledger.step app (Ledger.RecordTransaction (Billing.buildInvoice bs uuid now)).
Proof.
  unfold Billing.handleSaveInvoice.
  destruct (Billing.currentItems bs); [left | right]; reflexivity.
Qed.

(** C7, as the code has it.  From the seed catalog, any sequence of add,
    update, delete and record operations keeps every currentStock at 0 or
    more provided the products handed to add and update have a stock of at
    least 0 and the lines of PURCHASE invoices have quantities of at least
    0; a SALE never needs a condition, its decrement being clamped at 0. *)
Theorem stock_never_negative (MOCK_INVOICES : list Invoice) (ops : list Ledger.Op) :
  Forall Ledger.admissible ops ->
  Ledger.stockNonNegative (Ledger.run ops (App.initial MOCK_INVOICES)).
Proof.
  intros Hops. apply run_keeps_stock_nonneg; [exact Hops|].
  exact initial_stock_nonneg.
Qed.

(** C7 fails as stated: the handlers store what they are given.  Adding a
    product with stock -3 (also through the product form) and recording a
    PURCHASE of -20 units each leave a negative stock. *)
Lemma negative_stock_is_reachable :
  ~ Ledger.stockNonNegative
      (Ledger.run [Ledger.AddProduct Sample.debtProduct] (App.initial [])) /\
  Inventory.handleSave (App.initial []) Sample.debtForm "9" Sample.noon
  = Ledger.run [Ledger.AddProduct Sample.debtProduct] (App.initial []) /\
  ~ Ledger.stockNonNegative
      (Ledger.run [Ledger.RecordTransaction Sample.negativePurchase] (App.initial [])).
Proof.
  split; [|split].
  - intros H. unfold Ledger.stockNonNegative in H. rewrite Forall_forall in H.
    specialize (H Sample.debtProduct). cbn in H.
    assert (Hin : -3 >= 0 -> False) by lia. apply Hin.
    apply Z.le_ge, H. repeat (try (left; reflexivity); right).
  - reflexivity.
  - intros H. unfold Ledger.stockNonNegative in H. rewrite Forall_forall in H.
    specialize (H (mkProduct "1" "Leche Entera 1L" "Lácteos" (-8) 20 1200 800
                     Sample.day)).
    cbn in H. assert (Hin : -8 >= 0 -> False) by lia. apply Hin.
    apply Z.le_ge, H. left. reflexivity.
Qed.

(** * Properties of the chart series *)

(** ** The range filter *)

Lemma addDays_shift (zone : TimeZone) (t : Instant) (n : Z) :
  @eq Z (addDays zone t n) (t + n * msPerDay + offsetShift zone t n).
Proof.
  unfold offsetShift, addDays, UTC, LocalTime.
  generalize (n * msPerDay). intros m. lia.
Qed.

Lemma offsetShift_bound (zone : TimeZone) (t : Instant) (n : Z) :
  - (2 * msPerDay) < offsetShift zone t n < 2 * msPerDay.
Proof.
  unfold offsetShift.
  pose proof (utcOffset_lt_day zone t).
  pose proof (localOffset_lt_day zone (LocalTime zone t + n * msPerDay)).
  lia.
Qed.

Lemma offsetShift_fixed (offset : Z) (H : - msPerDay < offset < msPerDay)
    (t : Instant) (n : Z) :
  offsetShift (fixedZone offset H) t n = 0.
Proof. unfold offsetShift. cbn. lia. Qed.

Lemma cutoff_test (zone : TimeZone) (today : Instant) (timeRange : TimeRange) (d : ISODate) :
  (cutoffDate zone today timeRange <=? newDate d)
  = Series.keptDate zone today timeRange d.
Proof.
  unfold Series.keptDate, cutoffDate, newDate. rewrite addDays_shift.
  f_equal. rewrite Z.mul_opp_l. lia.
Qed.

Lemma keptDate_steady (zone : TimeZone) (today : Instant) (timeRange : TimeRange)
    (d : ISODate) :
  offsetShift zone today (- rangeDays timeRange) = 0 ->
  Series.keptDate zone today timeRange d = Series.withinWindow today timeRange d.
Proof.
  intros Hs. unfold Series.keptDate, Series.withinWindow, Series.todayDate, toISODate.
  rewrite Hs.
  assert (Hpos : 0 < msPerDay) by (unfold msPerDay; lia).
  pose proof (Z.div_mod today msPerDay ltac:(lia)) as Hdm.
  pose proof (Z.mod_pos_bound today msPerDay Hpos) as Hr.
  set (q := today / msPerDay) in *. set (r := today mod msPerDay) in *.
  set (n := rangeDays timeRange).
  unfold msPerDay in *.
  destruct (Z.eqb_spec r 0) as [Hr0|Hr0].
  - destruct (Z.leb_spec (today - n * 86400000 + 0) (d * 86400000));
      destruct (Z.leb_spec (q - n) d); try reflexivity; lia.
  - destruct (Z.leb_spec (today - n * 86400000 + 0) (d * 86400000));
      destruct (Z.ltb_spec (q - n) d); try reflexivity; lia.
Qed.

Lemma keptDate_boundary (zone : TimeZone) (today : Instant) (timeRange : TimeRange) :
  Series.keptDate zone today timeRange (Series.todayDate today - rangeDays timeRange)
  = (today mod msPerDay + offsetShift zone today (- rangeDays timeRange) <=? 0).
Proof.
  unfold Series.keptDate, Series.todayDate, toISODate.
  assert (Hpos : 0 < msPerDay) by (unfold msPerDay; lia).
  pose proof (Z.div_mod today msPerDay ltac:(lia)) as Hdm.
  set (q := today / msPerDay) in *. set (r := today mod msPerDay) in *.
  set (n := rangeDays timeRange). set (sh := offsetShift zone today (- n)).
  unfold msPerDay in *.
  destruct (Z.leb_spec (today - n * 86400000 + sh) ((q - n) * 86400000));
    destruct (Z.leb_spec (r + sh) 0); try reflexivity; lia.
Qed.

(** C6, as the code has it.  The window is 7 days for WEEK, 30 for MONTH
    and 365 for YEAR.  The filter of either chart compares instants: it
    keeps exactly the grouped entries whose date, taken at midnight UTC, is
    not before the cutoff, which is the current local wall-clock time moved
    back by the window and read back as an instant: the current instant
    minus the window, plus the change of the zone's offset over the window.
    When the offset is the same at both ends (always, in a zone without
    transitions), that is today - windowDays < date at day granularity, and
    the boundary date today - windowDays is kept exactly when the current
    instant is midnight UTC.  In general the boundary date is kept exactly
    when the time elapsed since midnight UTC plus the change of offset is
    at most 0. *)
Theorem range_filter_rule (zone : TimeZone)
    (invoices : list Invoice) (selectedProductId : string)
    (timeRange : TimeRange) (today : Instant) :
  (rangeDays WEEK = 7 /\ rangeDays MONTH = 30 /\ rangeDays YEAR = 365) /\
  Dashboard.inRange zone invoices timeRange today
  = filter (fun pt => Series.keptDate zone today timeRange (Dashboard.date pt))
           (Dashboard.historical invoices) /\
  ProductAnalytics.inRange zone invoices selectedProductId timeRange today
  = filter (fun pt => Series.keptDate zone today timeRange (ProductAnalytics.date pt))
           (ProductAnalytics.historical invoices selectedProductId) /\
  (offsetShift zone today (- rangeDays timeRange) = 0 ->
   (forall d, Series.keptDate zone today timeRange d
              = Series.withinWindow today timeRange d) /\
   Series.keptDate zone today timeRange
     (Series.todayDate today - rangeDays timeRange)
   = (today mod msPerDay =? 0)) /\
  Series.keptDate zone today timeRange
    (Series.todayDate today - rangeDays timeRange)
  = (today mod msPerDay + offsetShift zone today (- rangeDays timeRange) <=? 0).
Proof.
  split; [repeat split|]. split; [|split; [|split]].
  - unfold Dashboard.inRange. apply filter_ext. intros pt. apply cutoff_test.
  - unfold ProductAnalytics.inRange. apply filter_ext. intros pt. apply cutoff_test.
  - intros Hs. split; [intros d; now apply keptDate_steady|].
    rewrite keptDate_steady by exact Hs. unfold Series.withinWindow.
    destruct (today mod msPerDay =? 0).
    + apply Z.leb_refl.
    + apply Z.ltb_irrefl.
  - apply keptDate_boundary.
Qed.

(** In a zone without transitions, at noon, a week is kept from the day
    after the boundary date. *)
Lemma range_filter_rule_witness :
  let today := addDays utc Sample.noon 7 in
  offsetShift utc today (- rangeDays WEEK) = 0 /\
  (forall d, Series.keptDate utc today WEEK d = Series.withinWindow today WEEK d) /\
  Series.keptDate utc today WEEK (Series.todayDate today - rangeDays WEEK) = false.
Proof.
  cbv zeta.
  assert (H : offsetShift utc (addDays utc Sample.noon 7) (- rangeDays WEEK) = 0)
    by reflexivity.
  destruct (range_filter_rule utc [] "1" WEEK (addDays utc Sample.noon 7))
    as (_ & _ & _ & Hsteady & _).
  destruct (Hsteady H) as [Hall Hb].
  split; [exact H|]. split; [exact Hall|]. rewrite Hb. reflexivity.
Defined.

(** Across a change of offset the boundary date can be kept at another time
    than midnight UTC: in Santiago, half an hour after midnight UTC of
    10 April 2024, three days after the clocks went back, the cutoff of the
    week is 23:30 UTC of 2 April and the entry of 3 April is kept. *)
Example boundary_date_kept_after_clock_change :
  Sample.aprilNight mod msPerDay <> 0 /\
  cutoffDate Sample.santiago Sample.aprilNight WEEK
  = newDate (isoDate 2024 4 2) + 23 * Sample.hour + Sample.hour / 2 /\
  Series.todayDate Sample.aprilNight - rangeDays WEEK = isoDate 2024 4 3 /\
  Series.keptDate Sample.santiago Sample.aprilNight WEEK (isoDate 2024 4 3) = true /\
  map Dashboard.date
      (Dashboard.inRange Sample.santiago [Sample.saleOn (isoDate 2024 4 3) 5]
         WEEK Sample.aprilNight)
  = [isoDate 2024 4 3].
Proof. repeat split; try reflexivity. vm_compute. discriminate. Qed.

(** C6 fails as stated: at noon, with a window of a week, the entry dated
    exactly seven days before today satisfies today - 7 <= date and is
    dropped by both charts. *)
Lemma boundary_date_is_dropped :
  let today := addDays utc Sample.noon 7 in
  (exists pt,
      In pt (Dashboard.historical [Sample.milkSale]) /\
      Series.todayDate today - rangeDays WEEK <= Dashboard.date pt /\
      ~ In pt (Dashboard.inRange utc [Sample.milkSale] WEEK today)) /\
  (exists pt,
      In pt (ProductAnalytics.historical [Sample.milkSale] "1") /\
      Series.todayDate today - rangeDays WEEK <= ProductAnalytics.date pt /\
      ~ In pt (ProductAnalytics.inRange utc [Sample.milkSale] "1" WEEK today)).
Proof.
  split.
  - exists (Dashboard.mkChartPoint Sample.day (Some 6000) (Some 0) None).
    split; [left; reflexivity|]. split; [vm_compute; discriminate|].
    vm_compute. intros H; exact H.
  - exists (ProductAnalytics.mkChartPoint Sample.day (Some 5) None).
    split; [left; reflexivity|]. split; [vm_compute; discriminate|].
    vm_compute. intros H; exact H.
Qed.

(** ** Sorting keeps the elements *)

Section SortFacts.

Context {A : Type} (key : A -> Z).

Lemma In_insertBy (x y : A) (l : list A) :
  In y (insertBy key x l) <-> y = x \/ In y l.
Proof.
  induction l as [|z l IH]; simpl.
  - intuition.
  - destruct (key x <? key z); simpl; [intuition|].
    rewrite IH. intuition.
Qed.

Lemma In_sortBy_acc (l acc : list A) (y : A) :
  In y (fold_left (fun acc x => insertBy key x acc) l acc) <-> In y l \/ In y acc.
Proof.
  revert acc. induction l as [|x l IH]; intros acc; simpl.
  - intuition.
  - rewrite IH, In_insertBy. intuition.
Qed.

Lemma In_sortBy (l : list A) (y : A) : In y (sortBy key l) <-> In y l.
Proof. unfold sortBy. rewrite In_sortBy_acc. simpl. intuition. Qed.

Lemma insertBy_HdRel (a x : A) (l : list A) :
  key a <= key x -> HdRel (byKey key) a l -> HdRel (byKey key) a (insertBy key x l).
Proof.
  intros Hax Hl. destruct l as [|z l]; simpl.
  - now constructor.
  - destruct (key x <? key z); constructor; [exact Hax|].
    now inversion Hl.
Qed.

Lemma insertBy_sorted (x : A) (l : list A) :
  Sorted (byKey key) l -> Sorted (byKey key) (insertBy key x l).
Proof.
  induction l as [|z l IH]; simpl; intros Hl.
  - repeat constructor.
  - destruct (Z.ltb_spec (key x) (key z)) as [Hlt|Hge].
    + constructor; [exact Hl|]. constructor. unfold byKey. lia.
    + inversion Hl; subst. constructor; [now apply IH|].
      now apply insertBy_HdRel.
Qed.

Lemma sortBy_sorted (l : list A) : Sorted (byKey key) (sortBy key l).
Proof.
  unfold sortBy.
  assert (Hacc : Sorted (byKey key) (@nil A)) by constructor.
  revert Hacc. generalize (@nil A) as acc.
  induction l as [|x l IH]; intros acc Hacc; simpl; [exact Hacc|].
  apply IH. now apply insertBy_sorted.
Qed.

Lemma length_insertBy (x : A) (l : list A) :
  List.length (insertBy key x l) = S (List.length l).
Proof.
  induction l as [|z l IH]; simpl; [reflexivity|].
  destruct (key x <? key z); simpl; [reflexivity | now rewrite IH].
Qed.

Lemma length_sortBy_acc (l acc : list A) :
  List.length (fold_left (fun acc x => insertBy key x acc) l acc)
  = (List.length l + List.length acc)%nat.
Proof.
  revert acc. induction l as [|x l IH]; intros acc; simpl; [reflexivity|].
  rewrite IH, length_insertBy. lia.
Qed.

Lemma length_sortBy (l : list A) : List.length (sortBy key l) = List.length l.
Proof. unfold sortBy. rewrite length_sortBy_acc. simpl. lia. Qed.

End SortFacts.

(** ** The last element of an array *)

Section LastFacts.

Context {A : Type}.

Lemma lastItem_snoc (h : list A) (x : A) : lastItem (h ++ [x]) = Some x.
Proof.
  induction h as [|a h IH]; [reflexivity|].
  cbn [app lastItem]. destruct (h ++ [x]) eqn:E; [|exact IH].
  now destruct h.
Qed.

Lemma updateLast_snoc (f : A -> A) (h : list A) (x : A) :
  updateLast f (h ++ [x]) = h ++ [f x].
Proof.
  induction h as [|a h IH]; [reflexivity|].
  cbn [app updateLast]. destruct (h ++ [x]) eqn:E; [now destruct h|].
  now rewrite IH.
Qed.

Lemma snoc_of_nonempty (l : list A) :
  (0 < List.length l)%nat -> exists h x, l = h ++ [x].
Proof.
  intros Hl. destruct (exists_last (l := l)) as (h & x & ->).
  - intros ->. cbn in Hl. lia.
  - now exists h, x.
Qed.

Lemma sliceLast_lastUpTo (n : nat) (l : list A) :
  sliceLast n l = Series.lastUpTo n l.
Proof.
  unfold sliceLast, Series.lastUpTo. now rewrite firstn_rev, rev_involutive.
Qed.

Lemma skipn_snoc_futures (h : list A) (x y : A) (fut : list A) :
  skipn (List.length (h ++ [x])) (h ++ [y] ++ fut) = fut.
Proof.
  rewrite app_assoc.
  replace (List.length (h ++ [x])) with (List.length (h ++ [y]))
    by (rewrite !length_app; reflexivity).
  now rewrite skipn_app, skipn_all, Nat.sub_diag.
Qed.

End LastFacts.

Lemma fold_left_sum_map {A : Type} (g : A -> Z) (l : list A) :
  fold_left (fun acc x => acc + g x) l 0 = fold_right Z.add 0 (map g l).
Proof.
  induction l as [|x l IH]; [reflexivity|].
  cbn [fold_left map fold_right]. rewrite fold_left_add_shift, IH. lia.
Qed.

Lemma projected_date (zone : TimeZone) (d : ISODate) (i : nat) :
  toISODate (addDays zone (newDate d) (Z.of_nat i)) = Series.projectedDate zone d i.
Proof.
  rewrite addDays_shift. unfold toISODate, newDate, Series.projectedDate.
  rewrite <- Z.mul_add_distr_r. apply Z.div_add_l. unfold msPerDay. lia.
Qed.

Lemma projectedDate_steady (zone : TimeZone) (d : ISODate) (i : nat) :
  offsetShift zone (newDate d) (Z.of_nat i) = 0 ->
  Series.projectedDate zone d i = d + Z.of_nat i.
Proof.
  intros Hs. unfold Series.projectedDate. rewrite Hs. cbn. lia.
Qed.

(** ** The financial chart *)

Lemma fin_historical_by_date (invoices : list Invoice) :
  Sorted (fun a b => Dashboard.date a <= Dashboard.date b)
         (Dashboard.historical invoices).
Proof.
  unfold Dashboard.historical.
  eapply Sorted_ind with (P := Sorted _); [constructor | | apply sortBy_sorted].
  intros a l _ IH Hd. constructor; [exact IH|].
  destruct Hd as [|b l Hab]; constructor.
  unfold byKey, newDate, msPerDay in Hab. lia.
Qed.

Lemma fin_historical_shape (invoices : list Invoice) (pt : Dashboard.ChartPoint) :
  In pt (Dashboard.historical invoices) ->
  Dashboard.estimated pt = None /\
  Series.isSome (Dashboard.sales pt) = true /\
  Series.isSome (Dashboard.purchases pt) = true.
Proof.
  unfold Dashboard.historical. rewrite In_sortBy, in_map_iff.
  intros (e & <- & _). cbn. auto.
Qed.

Lemma fin_inRange_shape (zone : TimeZone) (invoices : list Invoice) (timeRange : TimeRange)
    (today : Instant) (pt : Dashboard.ChartPoint) :
  In pt (Dashboard.inRange zone invoices timeRange today) ->
  Dashboard.estimated pt = None /\
  Series.isSome (Dashboard.sales pt) = true /\
  Series.isSome (Dashboard.purchases pt) = true.
Proof.
  unfold Dashboard.inRange. rewrite filter_In. intros [H _].
  now apply fin_historical_shape in H.
Qed.

Lemma fin_project_short (zone : TimeZone) (l : list Dashboard.ChartPoint) (random : nat -> Q) :
  (List.length l <= 2)%nat -> Dashboard.project zone l random = l.
Proof.
  intros H. unfold Dashboard.project.
  destruct (Nat.ltb_spec 2 (List.length l)); [lia | reflexivity].
Qed.

Lemma fin_project_long (zone : TimeZone) (h : list Dashboard.ChartPoint) (x : Dashboard.ChartPoint)
    (random : nat -> Q) :
  (2 < List.length (h ++ [x]))%nat ->
  Dashboard.project zone (h ++ [x]) random
  = h ++ [Dashboard.mkChartPoint (Dashboard.date x) (Dashboard.sales x)
            (Dashboard.purchases x) (Dashboard.sales x)]
      ++ map (Dashboard.projected zone (Dashboard.avgSales (h ++ [x]))
                (newDate (Dashboard.date x)) random) (seq 1 5).
Proof.
  intros H. unfold Dashboard.project.
  destruct (Nat.ltb_spec 2 (List.length (h ++ [x]))); [|lia].
  rewrite lastItem_snoc, updateLast_snoc. now rewrite <- app_assoc.
Qed.

Lemma fin_avgSales_mean (l : list Dashboard.ChartPoint) :
  Dashboard.avgSales l = Series.mean (Series.salesOf (Series.lastUpTo 5 l)).
Proof.
  unfold Dashboard.avgSales, Series.mean, Series.salesOf.
  now rewrite sliceLast_lastUpTo, fold_left_sum_map, length_map.
Qed.

Lemma existsb_all_false {A : Type} (f : A -> bool) (l : list A) :
  (forall x, In x l -> f x = false) -> existsb f l = false.
Proof.
  intros H. induction l as [|x l IH]; [reflexivity|].
  cbn. rewrite (H x (or_introl eq_refl)). apply IH.
  intros y Hy. apply H. now right.
Qed.

(** ** The product chart *)

Lemma prod_historical_shape (invoices : list Invoice) (sel : string)
    (pt : ProductAnalytics.ChartPoint) :
  In pt (ProductAnalytics.historical invoices sel) ->
  ProductAnalytics.estimated pt = None /\
  Series.isSome (ProductAnalytics.real pt) = true.
Proof.
  unfold ProductAnalytics.historical. rewrite In_sortBy, in_map_iff.
  intros (e & <- & _). cbn. auto.
Qed.

Lemma prod_inRange_shape (zone : TimeZone) (invoices : list Invoice) (sel : string)
    (timeRange : TimeRange) (today : Instant) (pt : ProductAnalytics.ChartPoint) :
  In pt (ProductAnalytics.inRange zone invoices sel timeRange today) ->
  ProductAnalytics.estimated pt = None /\
  Series.isSome (ProductAnalytics.real pt) = true.
Proof.
  unfold ProductAnalytics.inRange. rewrite filter_In. intros [H _].
  now apply prod_historical_shape in H.
Qed.

Lemma prod_project_short (zone : TimeZone) (l : list ProductAnalytics.ChartPoint) (random : nat -> Q) :
  (List.length l <= 1)%nat -> ProductAnalytics.project zone l random = l.
Proof.
  intros H. unfold ProductAnalytics.project.
  destruct (Nat.ltb_spec 1 (List.length l)); [lia | reflexivity].
Qed.

Lemma prod_project_long (zone : TimeZone) (h : list ProductAnalytics.ChartPoint)
    (x : ProductAnalytics.ChartPoint) (random : nat -> Q) :
  (1 < List.length (h ++ [x]))%nat ->
  ProductAnalytics.project zone (h ++ [x]) random
  = h ++ [ProductAnalytics.mkChartPoint (ProductAnalytics.date x)
            (ProductAnalytics.real x) (ProductAnalytics.real x)]
      ++ map (ProductAnalytics.projected zone (ProductAnalytics.avgSales (h ++ [x]))
                (newDate (ProductAnalytics.date x)) random) (seq 1 4).
Proof.
  intros H. unfold ProductAnalytics.project.
  destruct (Nat.ltb_spec 1 (List.length (h ++ [x]))); [|lia].
  rewrite lastItem_snoc, updateLast_snoc. now rewrite <- app_assoc.
Qed.

Lemma prod_avgSales_mean (l : list ProductAnalytics.ChartPoint) :
  ProductAnalytics.avgSales l = Series.mean (Series.realOf l).
Proof.
  unfold ProductAnalytics.avgSales, Series.mean, Series.realOf.
  now rewrite fold_left_sum_map, length_map.
Qed.

(** ** When a projection is made, and from which average *)

Lemma fin_projection_flag (zone : TimeZone) (invoices : list Invoice) (timeRange : TimeRange)
    (today : Instant) (random : nat -> Q) :
  Series.financialProjection
    (Dashboard.generateChartData zone invoices timeRange today random)
  = (2 <? List.length (Dashboard.inRange zone invoices timeRange today))%nat.
Proof.
  unfold Dashboard.generateChartData, Series.financialProjection.
  set (fin := Dashboard.inRange zone invoices timeRange today).
  assert (Hshape : forall pt, In pt fin ->
            Dashboard.estimated pt = None /\
            Series.isSome (Dashboard.sales pt) = true /\
            Series.isSome (Dashboard.purchases pt) = true)
    by (intros pt; apply fin_inRange_shape).
  destruct (Nat.ltb_spec 2 (List.length fin)) as [Hlen|Hlen].
  - destruct (snoc_of_nonempty fin ltac:(lia)) as (h & x & E).
    rewrite E in *. rewrite fin_project_long by exact Hlen.
    apply existsb_exists. eexists. split.
    + apply in_or_app. right. left. reflexivity.
    + cbn. apply Hshape. apply in_or_app. right. now left.
  - rewrite fin_project_short by exact Hlen.
    apply existsb_all_false. intros pt Hpt.
    destruct (Hshape pt Hpt) as [-> _]. reflexivity.
Qed.

Lemma prod_projection_flag (zone : TimeZone) (invoices : list Invoice) (sel : string)
    (timeRange : TimeRange) (today : Instant) (random : nat -> Q) :
  Series.productProjection
    (ProductAnalytics.generateChartData zone invoices sel timeRange today random)
  = (1 <? List.length (ProductAnalytics.inRange zone invoices sel timeRange today))%nat.
Proof.
  unfold ProductAnalytics.generateChartData, Series.productProjection.
  set (prod := ProductAnalytics.inRange zone invoices sel timeRange today).
  assert (Hshape : forall pt, In pt prod ->
            ProductAnalytics.estimated pt = None /\
            Series.isSome (ProductAnalytics.real pt) = true)
    by (intros pt; apply prod_inRange_shape).
  destruct (Nat.ltb_spec 1 (List.length prod)) as [Hlen|Hlen].
  - destruct (snoc_of_nonempty prod ltac:(lia)) as (h & x & E).
    rewrite E in *. rewrite prod_project_long by exact Hlen.
    apply existsb_exists. eexists. split.
    + apply in_or_app. right. left. reflexivity.
    + cbn. apply Hshape. apply in_or_app. right. now left.
  - rewrite prod_project_short by exact Hlen.
    apply existsb_all_false. intros pt Hpt.
    destruct (Hshape pt Hpt) as [-> _]. reflexivity.
Qed.

Lemma fin_projected_values (zone : TimeZone) (l : list Dashboard.ChartPoint) (random : nat -> Q) :
  map Dashboard.estimated (skipn (List.length l) (Dashboard.project zone l random))
  = if (2 <? List.length l)%nat
    then map (fun k =>
                Some (Math_round
                        (Series.mean (Series.salesOf (Series.lastUpTo 5 l))
                         * (1 + (random k * (1 # 5) - (1 # 10))))%Q))
             (seq 0 5)
    else [].
Proof.
  destruct (Nat.ltb_spec 2 (List.length l)) as [Hlen|Hlen].
  - destruct (snoc_of_nonempty l ltac:(lia)) as (h & x & E).
    rewrite <- fin_avgSales_mean. rewrite E in *.
    rewrite fin_project_long by exact Hlen.
    rewrite skipn_snoc_futures, <- seq_shift, !map_map. reflexivity.
  - rewrite fin_project_short by exact Hlen. now rewrite skipn_all.
Qed.

Lemma prod_projected_values (zone : TimeZone) (l : list ProductAnalytics.ChartPoint)
    (random : nat -> Q) :
  map ProductAnalytics.estimated
      (skipn (List.length l) (ProductAnalytics.project zone l random))
  = if (1 <? List.length l)%nat
    then map (fun k =>
                Some (Z.max 0
                        (Math_round
                           (Series.mean (Series.realOf l) + (random k * 2 - 1))%Q)))
             (seq 0 4)
    else [].
Proof.
  destruct (Nat.ltb_spec 1 (List.length l)) as [Hlen|Hlen].
  - destruct (snoc_of_nonempty l ltac:(lia)) as (h & x & E).
    rewrite <- prod_avgSales_mean. rewrite E in *.
    rewrite prod_project_long by exact Hlen.
    rewrite skipn_snoc_futures, <- seq_shift, !map_map. reflexivity.
  - rewrite prod_project_short by exact Hlen. now rewrite skipn_all.
Qed.

(** C4, as the code has it.  The financial chart carries a projection
    exactly when its filtered series has more than two points, the product
    chart exactly when its filtered series has more than one point.  The
    projected values appended after the filtered points are then computed
    from the mean of the sales of the last five filtered points (all of them
    when fewer) for the financial chart, and from the mean of the quantities
    of all the filtered points for the product chart; otherwise nothing is
    appended. *)
Theorem projection_threshold_and_average (zone : TimeZone)
    (invoices : list Invoice) (selectedProductId : string)
    (timeRange : TimeRange) (today : Instant) (random : nat -> Q) :
  let fin := Dashboard.inRange zone invoices timeRange today in
  let prod := ProductAnalytics.inRange zone invoices selectedProductId timeRange today in
  Series.financialProjection
    (Dashboard.generateChartData zone invoices timeRange today random)
  = (2 <? List.length fin)%nat /\
  Series.productProjection
    (ProductAnalytics.generateChartData zone invoices selectedProductId timeRange
       today random)
  = (1 <? List.length prod)%nat /\
  map Dashboard.estimated
      (skipn (List.length fin)
             (Dashboard.generateChartData zone invoices timeRange today random))
  = (if (2 <? List.length fin)%nat
     then map (fun k =>
                 Some (Math_round
                         (Series.mean (Series.salesOf (Series.lastUpTo 5 fin))
                          * (1 + (random k * (1 # 5) - (1 # 10))))%Q))
              (seq 0 5)
     else []) /\
  map ProductAnalytics.estimated
      (skipn (List.length prod)
             (ProductAnalytics.generateChartData zone invoices selectedProductId
                timeRange today random))
  = (if (1 <? List.length prod)%nat
     then map (fun k =>
                 Some (Z.max 0
                         (Math_round
                            (Series.mean (Series.realOf prod)
                             + (random k * 2 - 1))%Q)))
              (seq 0 4)
     else []).
Proof.
  cbv zeta. split; [apply fin_projection_flag|].
  split; [apply prod_projection_flag|].
  split; [apply fin_projected_values | apply prod_projected_values].
Qed.

(** C4 fails as stated: a financial series of two points in range (more
    than one) and a product series of one point in range (more than zero)
    come back without any projected value. *)
Lemma projection_needs_more_points :
  let today := addDays utc Sample.noon 1 in
  (1 < List.length (Dashboard.inRange utc Sample.twoDays MONTH today))%nat /\
  Series.financialProjection
    (Dashboard.generateChartData utc Sample.twoDays MONTH today Sample.half) = false /\
  (0 < List.length (ProductAnalytics.inRange utc [Sample.milkSale] "1" MONTH today))%nat /\
  Series.productProjection
    (ProductAnalytics.generateChartData utc [Sample.milkSale] "1" MONTH today Sample.half)
  = false.
Proof.
  cbv zeta. repeat split; vm_compute; try reflexivity; lia.
Qed.

(** ** Projected values are not negative *)






Section MapFacts.

Context {V : Type} (P : V -> Prop).



End MapFacts.





(** ** The shape of a projected series *)



(** * Worked scenarios *)

(** The documented scenario: selling 5 of the 12 units of milk leaves 7;
    buying 30 then gives 37 and sets the restock date. *)
Lemma stock_after_transaction_witness :
  NoDup (map productId (items Sample.milkSale)) /\
  (exists p',
     nth_error (App.products (App.handleAddInvoice Sample.shop Sample.milkSale)) 0
     = Some p' /\
     id p' = "1" /\ currentStock p' = 7) /\
  (exists p',
     nth_error
       (App.products
          (App.handleAddInvoice (App.handleAddInvoice Sample.shop Sample.milkSale)
             Sample.milkPurchase)) 0
     = Some p' /\
     id p' = "1" /\ currentStock p' = 37 /\ lastRestocked p' = Sample.day).
Proof.
  assert (Hnd : forall i : InvoiceItem, NoDup (map productId [i])).
  { intros i. constructor; [intros [] | constructor]. }
  split; [apply Hnd|]. split.
  - exact (stock_after_transaction Sample.shop Sample.milkSale 0 Sample.milk
             Sample.milkLine (Hnd _) eq_refl (or_introl eq_refl) eq_refl).
  - exact (stock_after_transaction
             (App.handleAddInvoice Sample.shop Sample.milkSale)
             Sample.milkPurchase 0 (App.withStock Sample.milk 7)
             (mkInvoiceItem "1" "Leche Entera 1L" 30 800 24000)
             (Hnd _) eq_refl (or_introl eq_refl) eq_refl).
Defined.

(** Two lines of 5 and 4 units of milk: the stock goes from 12 to 7. *)
Lemma duplicate_items_first_wins_witness :
  exists p',
    nth_error (App.products (App.handleAddInvoice Sample.shop Sample.doubleSale)) 0
    = Some p' /\
    currentStock p' = 7 /\
    lastRestocked p' = isoDate 2023 10 20 /\
    nth_error
      (App.products
         (App.handleAddInvoice Sample.shop
            (Ledger.withItems Sample.doubleSale [Sample.milkLine]))) 0
    = Some p'.
Proof.
  destruct (duplicate_items_first_wins Sample.shop Sample.doubleSale 0
              Sample.milk [] [mkInvoiceItem "1" "Leche Entera 1L" 4 1200 4800]
              Sample.milkLine eq_refl eq_refl) as (p' & Hn & _ & Hstock & Hrest).
  - intros j [].
  - reflexivity.
  - cbn in Hstock. destruct Hstock as [Hs Hl].
    exists p'. split; [exact Hn|]. split; [exact Hs|]. split; [exact Hl|].
    exact (Hrest []).
Defined.

(** A sale of milk leaves the bread as it was and adds one invoice. *)
Lemma unreferenced_products_and_history_unchanged_witness :
  App.invoices (App.handleAddInvoice Sample.shop Sample.milkSale)
  = [Sample.milkSale] /\
  nth_error (App.products (App.handleAddInvoice Sample.shop Sample.milkSale)) 1
  = Some Sample.bread.
Proof.
  destruct (unreferenced_products_and_history_unchanged Sample.shop Sample.milkSale)
    as (Hhist & _ & Hframe).
  split; [exact Hhist|].
  apply Hframe; [reflexivity|].
  intros i [<-|[]]. discriminate.
Defined.

(** Milk is sold, then deleted from the catalog: the sale stays. *)
Lemma delete_product_keeps_invoices_witness :
  let st := App.handleAddInvoice Sample.shop Sample.milkSale in
  let st' := App.handleDeleteProduct st "1" in
  App.invoices st' = [Sample.milkSale] /\
  nth_error (App.invoices st') 0 = Some Sample.milkSale /\
  ~ In (App.withStock Sample.milk 7) (App.products st').
Proof.
  cbv zeta.
  refine (delete_product_keeps_invoices
            (App.handleAddInvoice Sample.shop Sample.milkSale) 0 Sample.milkSale
            (App.withStock Sample.milk 7) (or_introl eq_refl) eq_refl _).
  exists Sample.milkLine. split; [left|]; reflexivity.
Defined.

(** A day of admissible operations, an oversell included. *)
Lemma stock_never_negative_witness :
  Forall Ledger.admissible Sample.busyDay /\
  Ledger.stockNonNegative (Ledger.run Sample.busyDay (App.initial [])).
Proof.
  assert (H : Forall Ledger.admissible Sample.busyDay).
  { unfold Sample.busyDay. repeat constructor; cbn; try lia; discriminate. }
  split; [exact H|]. exact (stock_never_negative [] Sample.busyDay H).
Defined.


(** * Further properties of the catalog handlers *)

(** X1. Updating a product keeps the catalog's length, order and ids and
    the invoice history; afterwards every product carrying the updated id is
    the product handed in; and when no product carries that id, nothing
    changes at all (the update is not an insert). *)
Theorem update_product_replaces_by_id (st : App.State) (u : Product) :
  map id (App.products (App.handleUpdateProduct st u)) = map id (App.products st) /\
  App.invoices (App.handleUpdateProduct st u) = App.invoices st /\
  (forall q, In q (App.products (App.handleUpdateProduct st u)) ->
             id q = id u -> q = u) /\
  ((forall q, In q (App.products st) -> id q <> id u) ->
   App.handleUpdateProduct st u = st).
Proof.
  unfold App.handleUpdateProduct. cbn [App.products App.invoices].
  split; [|split; [reflexivity|split]].
  - rewrite map_map. apply map_ext. intros q.
    destruct (String.eqb_spec (id q) (id u)) as [E|E]; [now rewrite E | reflexivity].
  - intros q Hq Hid. apply in_map_iff in Hq. destruct Hq as (q0 & Hq0 & _).
    destruct (String.eqb_spec (id q0) (id u)) as [E|E]; [now symmetry|].
    subst q. contradiction.
  - intros Hno. destruct st as [ps invs]. cbn [App.products App.invoices] in *.
    f_equal. rewrite <- (map_id ps) at 2. apply map_ext_in. intros q Hq.
    destruct (String.eqb_spec (id q) (id u)) as [E|E]; [|reflexivity].
    now destruct (Hno q Hq).
Qed.

Lemma update_product_replaces_by_id_witness :
  (forall q, In q (App.products Sample.shop) -> id q <> id Sample.tea) /\
  App.handleUpdateProduct Sample.shop Sample.tea = Sample.shop.
Proof.
  assert (H : forall q, In q (App.products Sample.shop) -> id q <> id Sample.tea).
  { intros q Hq. cbn in Hq.
    repeat (destruct Hq as [<-|Hq]; [discriminate|]). destruct Hq. }
  split; [exact H|].
  exact (proj2 (proj2 (proj2 (update_product_replaces_by_id Sample.shop Sample.tea))) H).
Defined.

Lemma delete_absent (ps : list Product) (i : string) :
  (forall q, In q ps -> id q <> i) ->
  filter (fun p => negb (String.eqb (id p) i)) ps = ps.
Proof.
  intros Hno. induction ps as [|q ps IH]; [reflexivity|]. cbn.
  destruct (String.eqb_spec (id q) i) as [E|E].
  - destruct (Hno q (or_introl eq_refl) E).
  - cbn. f_equal. apply IH. intros r Hr. apply Hno. now right.
Qed.

(** X2. After a deletion no product carries the deleted id, whether one or
    several did; deleting again, or deleting an id that no product carries,
    changes nothing. *)
Theorem delete_product_removes_id (st : App.State) (i : string) :
  (forall q, In q (App.products (App.handleDeleteProduct st i)) -> id q <> i) /\
  App.handleDeleteProduct (App.handleDeleteProduct st i) i
  = App.handleDeleteProduct st i /\
  ((forall q, In q (App.products st) -> id q <> i) ->
   App.handleDeleteProduct st i = st).
Proof.
  assert (Hgone : forall q, In q (App.products (App.handleDeleteProduct st i)) ->
                            id q <> i).
  { unfold App.handleDeleteProduct. cbn [App.products]. intros q Hq.
    apply filter_In in Hq. destruct Hq as [_ Hq].
    destruct (String.eqb_spec (id q) i); [discriminate | assumption]. }
  assert (Hnoop : forall s, (forall q, In q (App.products s) -> id q <> i) ->
                            App.handleDeleteProduct s i = s).
  { intros [ps invs] Hno. unfold App.handleDeleteProduct.
    cbn [App.products App.invoices] in *. f_equal. now apply delete_absent. }
  split; [exact Hgone|]. split.
  - apply Hnoop. exact Hgone.
  - apply Hnoop.
Qed.

Lemma delete_product_removes_id_witness :
  (forall q, In q (App.products Sample.shop) -> id q <> "99") /\
  App.handleDeleteProduct Sample.shop "99" = Sample.shop.
Proof.
  assert (H : forall q, In q (App.products Sample.shop) -> id q <> "99").
  { intros q Hq. cbn in Hq.
    repeat (destruct Hq as [<-|Hq]; [discriminate|]). destruct Hq. }
  split; [exact H|].
  exact (proj2 (proj2 (delete_product_removes_id Sample.shop "99")) H).
Defined.

(** X3. Adding a product whose id no product of the catalog carries and
    then deleting that id gives back the state before the addition. *)
Theorem add_then_delete_restores (st : App.State) (p : Product) :
  (forall q, In q (App.products st) -> id q <> id p) ->
  App.handleDeleteProduct (App.handleAddProduct st p) (id p) = st.
Proof.
  intros Hno. destruct st as [ps invs].
  unfold App.handleDeleteProduct, App.handleAddProduct.
  cbn [App.products App.invoices] in *. f_equal.
  rewrite filter_app, delete_absent by exact Hno. cbn.
  rewrite String.eqb_refl. cbn. apply app_nil_r.
Qed.

Lemma add_then_delete_restores_witness :
  (forall q, In q (App.products Sample.shop) -> id q <> id Sample.tea) /\
  App.handleDeleteProduct (App.handleAddProduct Sample.shop Sample.tea) "9"
  = Sample.shop.
Proof.
  assert (H : forall q, In q (App.products Sample.shop) -> id q <> id Sample.tea).
  { intros q Hq. cbn in Hq.
    repeat (destruct Hq as [<-|Hq]; [discriminate|]). destruct Hq. }
  split; [exact H|]. exact (add_then_delete_restores Sample.shop Sample.tea H).
Defined.

(** X4. The history is append-only: after any sequence of operations it is
    the history before, followed by the recorded invoices in the order they
    were recorded; catalog operations never touch it. *)
Theorem history_is_append_only (ops : list Ledger.Op) (st : App.State) :
  App.invoices (Ledger.run ops st) = App.invoices st ++ Catalog.recorded ops.
Proof.
  revert st. induction ops as [|op ops IH]; intros st.
  - cbn. now rewrite app_nil_r.
  - cbn [Ledger.run fold_left]. fold (Ledger.run ops (Ledger.step st op)).
    rewrite IH. destruct op; cbn; try reflexivity.
    now rewrite <- app_assoc.
Qed.

(** X5. Recording an invoice, of either type and whatever its lines, never
    changes the id, name, category, minStock, price or cost of any product,
    nor the order of the catalog; a SALE leaves lastRestocked alone too. *)
Theorem record_keeps_fixed_part (st : App.State) (inv : Invoice) :
  map Catalog.fixedPart (App.products (App.handleAddInvoice st inv))
  = map Catalog.fixedPart (App.products st) /\
  (type inv = SALE ->
   map lastRestocked (App.products (App.handleAddInvoice st inv))
   = map lastRestocked (App.products st)).
Proof.
  unfold App.handleAddInvoice. cbn [App.products]. rewrite !map_map. split.
  - apply map_ext. intros p. unfold App.updateStock.
    destruct (find _ (items inv)); [|reflexivity]. now destruct (type inv).
  - intros Hty. apply map_ext. intros p. unfold App.updateStock. rewrite Hty.
    now destruct (find _ (items inv)).
Qed.

Lemma record_keeps_fixed_part_witness :
  type Sample.oversell = SALE /\
  map lastRestocked (App.products (App.handleAddInvoice Sample.shop Sample.oversell))
  = map lastRestocked INITIAL_PRODUCTS.
Proof.
  split; [reflexivity|].
  exact (proj2 (record_keeps_fixed_part Sample.shop Sample.oversell) eq_refl).
Defined.

Lemma updateStock_bounds (inv : Invoice) (p : Product) :
  Catalog.nonNegativeQuantities inv ->
  match type inv with
  | SALE =>
      0 <= currentStock p ->
      0 <= currentStock (App.updateStock inv p) <= currentStock p
  | PURCHASE => currentStock p <= currentStock (App.updateStock inv p)
  end.
Proof.
  intros Hq. unfold App.updateStock.
  destruct (find _ (items inv)) as [i|] eqn:Hf.
  - apply find_some in Hf. destruct Hf as [Hin _].
    unfold Catalog.nonNegativeQuantities in Hq. rewrite Forall_forall in Hq.
    specialize (Hq i Hin). cbn in Hq. destruct (type inv); cbn; lia.
  - destruct (type inv); lia.
Qed.

(** X6. With no negative quantity among the lines: a SALE leaves a stock
    that was not negative between 0 and its value before (it is never
    raised), leaves a stock that was negative as it was or lifts it to 0,
    and so never takes any stock above max 0 of its value before; a
    PURCHASE never lowers a stock. *)
Theorem stock_moves_with_type
    (st : App.State) (inv : Invoice) (k : nat) (p p' : Product) :
  Catalog.nonNegativeQuantities inv ->
  nth_error (App.products st) k = Some p ->
  nth_error (App.products (App.handleAddInvoice st inv)) k = Some p' ->
  match type inv with
  | SALE =>
      (0 <= currentStock p -> 0 <= currentStock p' <= currentStock p) /\
      (currentStock p < 0 -> currentStock p' = 0 \/ currentStock p' = currentStock p) /\
      currentStock p' <= Z.max 0 (currentStock p)
  | PURCHASE => currentStock p <= currentStock p'
  end.
Proof.
  intros Hq Hk Hk'. rewrite nth_error_handleAddInvoice, Hk in Hk'.
  cbn in Hk'. injection Hk' as <-. unfold App.updateStock.
  destruct (find _ (items inv)) as [i|] eqn:Hf.
  - apply find_some in Hf. destruct Hf as [Hin _].
    unfold Catalog.nonNegativeQuantities in Hq. rewrite Forall_forall in Hq.
    specialize (Hq i Hin). cbn beta in Hq.
    destruct (type inv); cbn [currentStock App.withStock App.withRestock]; lia.
  - destruct (type inv); lia.
Qed.

Lemma stock_moves_with_type_witness :
  Catalog.nonNegativeQuantities Sample.oversell /\
  0 <= currentStock Sample.milk /\
  0 <= currentStock (App.withStock Sample.milk 0) <= currentStock Sample.milk.
Proof.
  assert (H : Catalog.nonNegativeQuantities Sample.oversell).
  { repeat constructor. cbn. lia. }
  assert (H0 : 0 <= currentStock Sample.milk) by (cbn; lia).
  split; [exact H|]. split; [exact H0|].
  exact (proj1 (stock_moves_with_type Sample.shop Sample.oversell 0 Sample.milk
                  (App.withStock Sample.milk 0) H eq_refl eq_refl) H0).
Defined.

(** X7. With no negative quantity among the lines, a SALE never takes a
    product with a non-negative stock off the low-stock list, and a PURCHASE
    never puts a product on it. *)
Theorem low_stock_list_follows_type
    (st : App.State) (inv : Invoice) (k : nat) (p p' : Product) :
  Catalog.nonNegativeQuantities inv ->
  nth_error (App.products st) k = Some p ->
  nth_error (App.products (App.handleAddInvoice st inv)) k = Some p' ->
  match type inv with
  | SALE =>
      0 <= currentStock p ->
      In p (Dashboard.lowStockProducts (App.products st)) ->
      In p' (Dashboard.lowStockProducts (App.products (App.handleAddInvoice st inv)))
  | PURCHASE =>
      In p' (Dashboard.lowStockProducts (App.products (App.handleAddInvoice st inv))) ->
      In p (Dashboard.lowStockProducts (App.products st))
  end.
Proof.
  intros Hq Hk Hk'.
  pose proof (nth_error_In _ _ Hk) as Hin.
  pose proof (nth_error_In _ _ Hk') as Hin'.
  rewrite nth_error_handleAddInvoice, Hk in Hk'. cbn in Hk'. injection Hk' as <-.
  pose proof (updateStock_bounds inv p Hq) as Hb.
  assert (Hmin : minStock (App.updateStock inv p) = minStock p).
  { unfold App.updateStock. destruct (find _ (items inv)); [|reflexivity].
    now destruct (type inv). }
  unfold Dashboard.lowStockProducts. destruct (type inv).
  - intros H0 Hlow. apply filter_In in Hlow. destruct Hlow as [_ Hlow].
    apply filter_In. split; [exact Hin'|].
    apply Z.leb_le in Hlow. apply Z.leb_le. rewrite Hmin. specialize (Hb H0). lia.
  - intros Hlow. apply filter_In in Hlow. destruct Hlow as [_ Hlow].
    apply filter_In. split; [exact Hin|].
    apply Z.leb_le in Hlow. apply Z.leb_le. rewrite Hmin in Hlow. lia.
Qed.

Lemma low_stock_list_follows_type_witness :
  Catalog.nonNegativeQuantities Sample.milkSale /\
  In (App.withStock Sample.milk 7)
     (Dashboard.lowStockProducts
        (App.products (App.handleAddInvoice Sample.shop Sample.milkSale))).
Proof.
  assert (H : Catalog.nonNegativeQuantities Sample.milkSale).
  { repeat constructor. cbn. lia. }
  split; [exact H|].
  refine (low_stock_list_follows_type Sample.shop Sample.milkSale 0 Sample.milk
            (App.withStock Sample.milk 7) H eq_refl eq_refl _ _).
  - cbn. lia.
  - left. reflexivity.
Defined.

Lemma fold_total_app (f : Invoice -> bool) (l : list Invoice) (inv : Invoice) :
  fold_left (fun acc i => acc + totalAmount i) (filter f (l ++ [inv])) 0
  = fold_left (fun acc i => acc + totalAmount i) (filter f l) 0
    + (if f inv then totalAmount inv else 0).
Proof.
  rewrite filter_app, fold_left_app. cbn [filter].
  destruct (f inv); cbn [fold_left]; lia.
Qed.

(** X8. Recording an invoice moves the cash-flow figures by its
    totalAmount: a SALE adds it to totalSales and to netProfit, a PURCHASE
    adds it to totalPurchases and takes it from netProfit; the other total
    stays as it was. *)
Theorem recording_moves_totals (st : App.State) (inv : Invoice) :
  let after := App.invoices (App.handleAddInvoice st inv) in
  Dashboard.totalSales after
  = Dashboard.totalSales (App.invoices st)
    + (match type inv with SALE => totalAmount inv | PURCHASE => 0 end) /\
  Dashboard.totalPurchases after
  = Dashboard.totalPurchases (App.invoices st)
    + (match type inv with SALE => 0 | PURCHASE => totalAmount inv end) /\
  Dashboard.netProfit after
  = Dashboard.netProfit (App.invoices st)
    + (match type inv with SALE => totalAmount inv | PURCHASE => - totalAmount inv end).
Proof.
  cbv zeta. unfold Dashboard.netProfit, Dashboard.totalSales,
    Dashboard.totalPurchases, App.handleAddInvoice. cbn [App.invoices].
  rewrite !fold_total_app. destruct (type inv); cbn; repeat split; lia.
Qed.

Lemma fold_scaled (g : Product -> Z) (k : Z) (ps : list Product) :
  (forall p, g (Catalog.scaleStock k p) = g p) ->
  fold_left (fun acc p => acc + currentStock p * g p)
            (map (Catalog.scaleStock k) ps) 0
  = k * fold_left (fun acc p => acc + currentStock p * g p) ps 0.
Proof.
  intros Hg. rewrite !fold_left_sum_map, map_map.
  induction ps as [|p ps IH]; cbn [map fold_right]; [lia|].
  rewrite IH, Hg. cbn [Catalog.scaleStock App.withStock currentStock]. lia.
Qed.

(** X9. Both inventory valuations are linear in the stock: multiplying
    every product's stock by k multiplies the cost value and the potential
    revenue by k (doubling the stock doubles both; an empty catalog or zero
    stock values at 0). *)
Theorem valuations_are_linear (k : Z) (products : list Product) :
  Dashboard.totalInventoryCost (map (Catalog.scaleStock k) products)
  = k * Dashboard.totalInventoryCost products /\
  Dashboard.totalPotentialRevenue (map (Catalog.scaleStock k) products)
  = k * Dashboard.totalPotentialRevenue products.
Proof.
  unfold Dashboard.totalInventoryCost, Dashboard.totalPotentialRevenue.
  split; apply fold_scaled; reflexivity.
Qed.

(** * Further properties of the billing screen *)

Section IndexFacts.

Context {A : Type}.

Lemma findIndex_Some (f : A -> bool) (l : list A) (n : nat) :
  Billing.findIndex f l = Some n ->
  exists l1 x l2,
    l = l1 ++ x :: l2 /\ List.length l1 = n /\ f x = true /\
    forall y, In y l1 -> f y = false.
Proof.
  revert n. induction l as [|a l IH]; intros n; cbn; [discriminate|].
  destruct (f a) eqn:Hfa.
  - intros [= <-]. exists [], a, l. repeat split; auto. intros y [].
  - destruct (Billing.findIndex f l) as [m|]; cbn; [|discriminate].
    intros [= <-]. destruct (IH m eq_refl) as (l1 & x & l2 & -> & Hlen & Hx & Hl1).
    exists (a :: l1), x, l2. repeat split; cbn; auto.
    intros y [<-|Hy]; auto.
Qed.

Lemma findIndex_None (f : A -> bool) (l : list A) :
  Billing.findIndex f l = None -> forall y, In y l -> f y = false.
Proof.
  induction l as [|a l IH]; cbn; [intros _ y []|].
  destruct (f a) eqn:Hfa; [discriminate|].
  destruct (Billing.findIndex f l); cbn; [discriminate|].
  intros _ y [<-|Hy]; auto.
Qed.

Lemma updateAt_middle (g : A -> A) (l1 l2 : list A) (x : A) :
  Billing.updateAt (List.length l1) g (l1 ++ x :: l2) = l1 ++ g x :: l2.
Proof. induction l1 as [|a l1 IH]; cbn; [reflexivity | now rewrite IH]. Qed.

Lemma keep_other_indices (s t : nat) (l : list A) :
  (t < s)%nat ->
  map snd (filter (fun ix : nat * A => negb (Nat.eqb (fst ix) t))
                  (combine (seq s (List.length l)) l)) = l.
Proof.
  revert s. induction l as [|a l IH]; intros s Hts; cbn; [reflexivity|].
  destruct (Nat.eqb_spec s t); [lia|]. cbn. f_equal. apply IH. lia.
Qed.

Lemma remove_index_from (s index : nat) (l : list A) :
  map snd (filter (fun ix : nat * A => negb (Nat.eqb (fst ix) (s + index)))
                  (combine (seq s (List.length l)) l))
  = firstn index l ++ skipn (S index) l.
Proof.
  revert s index. induction l as [|a l IH]; intros s index.
  - now rewrite firstn_nil, skipn_nil.
  - cbn [List.length seq combine filter fst]. destruct index as [|i].
    + rewrite Nat.add_0_r, Nat.eqb_refl. cbn [negb firstn skipn app].
      apply keep_other_indices. lia.
    + destruct (Nat.eqb_spec s (s + S i)); [lia|]. cbn [negb map snd firstn skipn app].
      f_equal. replace (s + S i)%nat with (S s + i)%nat by lia. apply IH.
Qed.

End IndexFacts.

Lemma handleRemoveItem_items (bs : Billing.State) (index : nat) :
  Billing.currentItems (Billing.handleRemoveItem bs index)
  = firstn index (Billing.currentItems bs) ++ skipn (S index) (Billing.currentItems bs).
Proof.
  unfold Billing.handleRemoveItem. cbn [Billing.currentItems].
  exact (remove_index_from 0 index (Billing.currentItems bs)).
Qed.

(** X10. Removing a line takes out exactly the line at the given position
    and keeps the others in order; a position past the end removes nothing.
    The invoice type, the selection and the typed quantity are kept. *)
Theorem remove_item_by_position (bs : Billing.State) (index : nat) :
  let bs' := Billing.handleRemoveItem bs index in
  Billing.currentItems bs'
  = firstn index (Billing.currentItems bs)
    ++ skipn (S index) (Billing.currentItems bs) /\
  ((List.length (Billing.currentItems bs) <= index)%nat ->
   Billing.currentItems bs' = Billing.currentItems bs) /\
  ((index < List.length (Billing.currentItems bs))%nat ->
   S (List.length (Billing.currentItems bs'))
   = List.length (Billing.currentItems bs)) /\
  Billing.invoiceType bs' = Billing.invoiceType bs /\
  Billing.selectedProduct bs' = Billing.selectedProduct bs /\
  Billing.currentQty bs' = Billing.currentQty bs.
Proof.
  cbv zeta. rewrite handleRemoveItem_items.
  split; [reflexivity|]. split; [|split; [|repeat split]].
  - intros Hlen. rewrite firstn_all2, skipn_all2 by lia. apply app_nil_r.
  - intros Hlen. rewrite length_app, length_firstn, length_skipn. lia.
Qed.

Lemma remove_item_by_position_witness :
  let bs := Billing.mkState SALE "" 1
              [Sample.milkLine; mkInvoiceItem "2" "Pan de Molde Blanco" 1 2500 2500] in
  (2 <= 5)%nat /\
  Billing.currentItems (Billing.handleRemoveItem bs 5) = Billing.currentItems bs /\
  (0 < 2)%nat /\
  S (List.length (Billing.currentItems (Billing.handleRemoveItem bs 0))) = 2%nat.
Proof.
  cbv zeta.
  split; [lia|]. split.
  - refine (proj1 (proj2 (remove_item_by_position _ 5)) _). cbn. lia.
  - split; [lia|].
    refine (proj1 (proj2 (proj2 (remove_item_by_position _ 0))) _). cbn. lia.
Defined.

Lemma NoDup_snoc {A : Type} (l : list A) (a : A) :
  NoDup l -> ~ In a l -> NoDup (l ++ [a]).
Proof.
  induction l as [|b l IH]; cbn; intros Hnd Hnot.
  - constructor; [intros [] | constructor].
  - inversion Hnd; subst. constructor.
    + intros Hin. apply in_app_or in Hin. destruct Hin as [Hin|[<-|[]]]; tauto.
    + apply IH; tauto.
Qed.

Lemma find_by_same_id (products : list Product) (a b : string) :
  a = b ->
  find (fun q => String.eqb (id q) a) products
  = find (fun q => String.eqb (id q) b) products.
Proof. now intros ->. Qed.

Lemma handleAddItem_wellFormed (products : list Product) (bs : Billing.State) :
  Cart.wellFormed products (Billing.invoiceType bs) (Billing.currentItems bs) ->
  Cart.wellFormed products
    (Billing.invoiceType (Billing.handleAddItem products bs))
    (Billing.currentItems (Billing.handleAddItem products bs)).
Proof.
  intros [Hnd Hall]. unfold Billing.handleAddItem.
  destruct (find _ products) as [product|] eqn:Hfind; [|now split].
  cbn [Billing.invoiceType Billing.currentItems].
  pose proof (find_some _ _ Hfind) as [_ Hsel]. apply String.eqb_eq in Hsel.
  destruct (Billing.findIndex _ (Billing.currentItems bs)) as [n|] eqn:Hidx.
  - apply findIndex_Some in Hidx.
    destruct Hidx as (l1 & x & l2 & Hl & Hlen & Hx & _).
    rewrite Hl in *. subst n. rewrite updateAt_middle.
    apply String.eqb_eq in Hx. split.
    + rewrite map_app in *. exact Hnd.
    + apply Forall_app in Hall. destruct Hall as [H1 H2].
      inversion H2 as [|? ? Hxok H2']; subst.
      apply Forall_app. split; [exact H1|]. constructor; [|exact H2'].
      destruct Hxok as (p & Hp & Hname & Hprice & Htot).
      assert (p = product).
      { rewrite (find_by_same_id products (productId x) (Billing.selectedProduct bs))
          in Hp by congruence. congruence. }
      subst p. exists product. cbn. repeat split; auto.
      now rewrite Hprice.
  - pose proof (findIndex_None _ _ Hidx) as Hnone. split.
    + rewrite map_app. cbn. apply NoDup_snoc; [exact Hnd|].
      intros Hin. apply in_map_iff in Hin.
      destruct Hin as (y & Hy & Hiny). specialize (Hnone y Hiny).
      apply String.eqb_neq in Hnone. contradiction.
    + apply Forall_app. split; [exact Hall|]. constructor; [|constructor].
      exists product. cbn. repeat split.
      rewrite (find_by_same_id products (id product) (Billing.selectedProduct bs))
        by exact Hsel. exact Hfind.
Qed.

Lemma remove_position_cases {A : Type} (l : list A) (n : nat) :
  firstn n l ++ skipn (S n) l = l \/
  exists l1 x l2, l = l1 ++ x :: l2 /\ firstn n l ++ skipn (S n) l = l1 ++ l2.
Proof.
  revert n. induction l as [|a l IH]; intros n.
  - left. now rewrite firstn_nil, skipn_nil.
  - destruct n as [|m].
    + right. exists [], a, l. split; reflexivity.
    + cbn [firstn skipn app]. destruct (IH m) as [E|(l1 & x & l2 & E1 & E2)].
      * left. now f_equal.
      * right. exists (a :: l1), x, l2. cbn. split; now f_equal.
Qed.

Lemma handleRemoveItem_wellFormed (products : list Product) (bs : Billing.State)
    (index : nat) :
  Cart.wellFormed products (Billing.invoiceType bs) (Billing.currentItems bs) ->
  Cart.wellFormed products
    (Billing.invoiceType (Billing.handleRemoveItem bs index))
    (Billing.currentItems (Billing.handleRemoveItem bs index)).
Proof.
  intros [Hnd Hall]. rewrite handleRemoveItem_items.
  change (Billing.invoiceType (Billing.handleRemoveItem bs index))
    with (Billing.invoiceType bs).
  destruct (remove_position_cases (Billing.currentItems bs) index)
    as [->|(l1 & x & l2 & E1 & ->)]; [now split|].
  rewrite E1 in *. split.
  - rewrite map_app in *. cbn in Hnd. now apply NoDup_remove_1 in Hnd.
  - apply Forall_app in Hall. destruct Hall as [H1 H2].
    inversion H2; subst. apply Forall_app. now split.
Qed.

Lemma handle_wellFormed (products : list Product) (bs : Billing.State)
    (ev : Billing.Event) :
  Cart.wellFormed products (Billing.invoiceType bs) (Billing.currentItems bs) ->
  Cart.wellFormed products
    (Billing.invoiceType (Billing.handle products bs ev))
    (Billing.currentItems (Billing.handle products bs ev)).
Proof.
  intros Hwf. destruct ev; cbn [Billing.handle].
  - exact Hwf.
  - exact Hwf.
  - split; cbn; constructor.
  - destruct (String.eqb (Billing.selectedProduct bs) ""); [exact Hwf|].
    now apply handleAddItem_wellFormed.
  - now apply handleRemoveItem_wellFormed.
Qed.

Lemma session_wellFormed (products : list Product) (events : list Billing.Event) :
  Cart.wellFormed products
    (Billing.invoiceType (Billing.session products events))
    (Billing.currentItems (Billing.session products events)).
Proof.
  unfold Billing.session.
  assert (H0 : Cart.wellFormed products (Billing.invoiceType Billing.initial)
                 (Billing.currentItems Billing.initial))
    by (split; cbn; constructor).
  revert H0. generalize Billing.initial as bs.
  induction events as [|ev events IH]; intros bs Hbs; [exact Hbs|].
  cbn [fold_left]. apply IH. now apply handle_wellFormed.
Qed.

Lemma snapshot_resolves (products : list Product) (t : InvoiceType)
    (item : InvoiceItem) :
  Cart.snapshotOf products t item -> Ledger.resolves products item = true.
Proof.
  intros (p & Hp & _). apply find_some in Hp. destruct Hp as [Hin Heq].
  unfold Ledger.resolves. apply existsb_exists. now exists p.
Qed.

(** X11. Whatever the user does on the billing tab (select, type a
    quantity, switch type, add, remove, in any order and number), the
    invoice that saving would build has at most one line per product; every
    line resolves in the catalog and is a snapshot of its product (its name,
    and its price for a SALE or its cost for a PURCHASE), with
    total = quantity * unitPrice; and totalAmount, the total on display, is
    the sum of quantity * unitPrice over the lines. *)
Theorem composed_invoice_is_well_formed
    (app : App.State) (events : list Billing.Event) (uuid : string) (now : Instant) :
  let bs := Billing.session (App.products app) events in
  let inv := Billing.buildInvoice bs uuid now in
  NoDup (map productId (items inv)) /\
  Forall (Cart.snapshotOf (App.products app) (type inv)) (items inv) /\
  Forall (fun i => Ledger.resolves (App.products app) i = true) (items inv) /\
  totalAmount inv = Billing.totalInvoice bs /\
  totalAmount inv
  = fold_right Z.add 0 (map (fun i => quantity i * unitPrice i) (items inv)).
Proof.
  cbv zeta. cbn [Billing.buildInvoice items type totalAmount].
  destruct (session_wellFormed (App.products app) events) as [Hnd Hall].
  split; [exact Hnd|]. split; [exact Hall|]. split; [|split; [reflexivity|]].
  - eapply Forall_impl; [|exact Hall]. intros i. apply snapshot_resolves.
  - rewrite fold_left_sum_map. f_equal. apply map_ext_in. intros i Hi.
    rewrite Forall_forall in Hall. now destruct (Hall i Hi) as (_ & _ & _ & _ & ->).
Qed.



Lemma quantityIn_app (l1 l2 : list InvoiceItem) (pid : string) :
  Cart.quantityIn (l1 ++ l2) pid = Cart.quantityIn l1 pid + Cart.quantityIn l2 pid.
Proof.
  induction l1 as [|i l1 IH]; cbn; [reflexivity|].
  destruct (String.eqb (productId i) pid); lia.
Qed.

(** X12. Adding the selected product raises the quantity the lines hold of
    it by the typed quantity (in a new last line, or in the product's
    existing line), leaves the quantity of every other product as it was,
    clears the selection and resets the quantity field to 1.  When the
    selection matches no product, nothing changes. *)
Theorem add_item_adds_quantity (products : list Product) (bs : Billing.State) :
  (find (fun p => String.eqb (id p) (Billing.selectedProduct bs)) products = None ->
   Billing.handleAddItem products bs = bs) /\
  (forall product,
     find (fun p => String.eqb (id p) (Billing.selectedProduct bs)) products
     = Some product ->
     let bs' := Billing.handleAddItem products bs in
     (forall pid,
        Cart.quantityIn (Billing.currentItems bs') pid
        = Cart.quantityIn (Billing.currentItems bs) pid
          + (if String.eqb (id product) pid then Billing.currentQty bs else 0)) /\
     Billing.selectedProduct bs' = "" /\
     Billing.currentQty bs' = 1 /\
     Billing.invoiceType bs' = Billing.invoiceType bs).
Proof.
  unfold Billing.handleAddItem. split.
  - now intros ->.
  - intros product ->. cbv zeta.
    cbn [Billing.currentItems Billing.selectedProduct Billing.currentQty
         Billing.invoiceType].
    split; [|repeat split]. intros pid.
    destruct (Billing.findIndex _ (Billing.currentItems bs)) as [n|] eqn:Hidx.
    + apply findIndex_Some in Hidx.
      destruct Hidx as (l1 & x & l2 & Hl & Hlen & Hx & _).
      rewrite Hl. subst n. rewrite updateAt_middle, !quantityIn_app.
      apply String.eqb_eq in Hx. cbn. rewrite Hx.
      destruct (String.eqb (id product) pid); lia.
    + rewrite quantityIn_app. cbn. destruct (String.eqb (id product) pid); lia.
Qed.

Lemma add_item_adds_quantity_witness :
  let bs := Billing.mkState SALE "1" 4 [Sample.milkLine] in
  find (fun p => String.eqb (id p) (Billing.selectedProduct bs)) INITIAL_PRODUCTS
  = Some Sample.milk /\
  Cart.quantityIn (Billing.currentItems (Billing.handleAddItem INITIAL_PRODUCTS bs)) "1"
  = 5 + 4 /\
  find (fun p => String.eqb (id p) "99") INITIAL_PRODUCTS = None /\
  Billing.handleAddItem INITIAL_PRODUCTS (Billing.mkState SALE "99" 4 [Sample.milkLine])
  = Billing.mkState SALE "99" 4 [Sample.milkLine].
Proof.
  cbv zeta. split; [reflexivity|]. split; [|split; [reflexivity|]].
  - exact (proj1 (proj2 (add_item_adds_quantity INITIAL_PRODUCTS
                           (Billing.mkState SALE "1" 4 [Sample.milkLine]))
                    Sample.milk eq_refl) "1").
  - exact (proj1 (add_item_adds_quantity INITIAL_PRODUCTS
                    (Billing.mkState SALE "99" 4 [Sample.milkLine])) eq_refl).
Defined.

(** X13. Saving empties the composed lines and keeps the invoice type, so
    saving again at once records nothing more: two saves in a row append at
    most one invoice. *)
Theorem save_twice_records_once
    (app : App.State) (bs : Billing.State) (uuid uuid' : string) (now now' : Instant) :
  let saved := Billing.handleSaveInvoice app bs uuid now in
  Billing.currentItems (snd saved) = [] /\
  Billing.invoiceType (snd saved) = Billing.invoiceType bs /\
  Billing.handleSaveInvoice (fst saved) (snd saved) uuid' now' = saved.
Proof.
  cbv zeta. unfold Billing.handleSaveInvoice.
  destruct (Billing.currentItems bs) eqn:E; cbn.
  - rewrite E. auto.
  - auto.
Qed.

(** ** The sort, once more: it permutes, and it is stable *)

Section SortMore.

Context {A : Type} (key : A -> Z).

Lemma insertBy_perm (x : A) (l : list A) : Permutation (insertBy key x l) (x :: l).
Proof.
  induction l as [|y l IH]; cbn; [reflexivity|].
  destruct (key x <? key y); [reflexivity|].
  rewrite IH. apply perm_swap.
Qed.

Lemma sortBy_perm (l : list A) : Permutation (sortBy key l) l.
Proof.
  unfold sortBy.
  assert (H : forall acc, Permutation
                (fold_left (fun acc x => insertBy key x acc) l acc) (acc ++ l)).
  { induction l as [|x l IH]; intros acc; cbn.
    - now rewrite app_nil_r.
    - rewrite IH, insertBy_perm. apply Permutation_middle. }
  exact (H []).
Qed.

Lemma byKey_strongly (l : list A) :
  Sorted (byKey key) l -> StronglySorted (byKey key) l.
Proof.
  apply Sorted_StronglySorted. intros a b c. unfold byKey. lia.
Qed.

Lemma filter_key_above (c : Z) (l : list A) :
  Forall (fun y => c < key y) l -> filter (fun y => key y =? c) l = [].
Proof.
  induction 1 as [|y l Hy _ IH]; cbn; [reflexivity|].
  destruct (Z.eqb_spec (key y) c); [lia | exact IH].
Qed.

Lemma insertBy_filter (c : Z) (x : A) (l : list A) :
  StronglySorted (byKey key) l ->
  filter (fun y => key y =? c) (insertBy key x l)
  = filter (fun y => key y =? c) l ++ (if key x =? c then [x] else []).
Proof.
  induction 1 as [|y l Hl IH Hy]; cbn.
  - destruct (key x =? c); reflexivity.
  - destruct (Z.ltb_spec (key x) (key y)) as [Hlt|Hge].
    + cbn [filter]. destruct (Z.eqb_spec (key x) c) as [Hc|Hc].
      * assert (Hrest : filter (fun z => key z =? c) (y :: l) = []).
        { apply filter_key_above. constructor; [lia|].
          eapply Forall_impl; [|exact Hy]. unfold byKey. cbn. intros. lia. }
        cbn [filter] in Hrest. rewrite Hrest. reflexivity.
      * now rewrite app_nil_r.
    + cbn [filter]. rewrite IH. destruct (key y =? c); reflexivity.
Qed.

Lemma sortBy_stable (c : Z) (l : list A) :
  filter (fun y => key y =? c) (sortBy key l) = filter (fun y => key y =? c) l.
Proof.
  unfold sortBy.
  assert (H : forall acc, Sorted (byKey key) acc ->
            filter (fun y => key y =? c)
                   (fold_left (fun acc x => insertBy key x acc) l acc)
            = filter (fun y => key y =? c) acc ++ filter (fun y => key y =? c) l).
  { induction l as [|x l IH]; intros acc Hacc; cbn [fold_left filter].
    - now rewrite app_nil_r.
    - rewrite IH by now apply insertBy_sorted.
      rewrite insertBy_filter by now apply byKey_strongly.
      rewrite <- app_assoc. f_equal. destruct (key x =? c); reflexivity. }
  apply (H []). constructor.
Qed.

End SortMore.

(** X14. The history tab shows exactly the recorded invoices (each once,
    none added or lost), latest date first, and the invoices of one day in
    the order they were recorded. *)
Theorem sorted_history_is_stable_descending (invoices : list Invoice) :
  Permutation (Billing.sortedHistory invoices) invoices /\
  Sorted (fun a b => date b <= date a) (Billing.sortedHistory invoices) /\
  forall d,
    filter (fun a => date a =? d) (Billing.sortedHistory invoices)
    = filter (fun a => date a =? d) invoices.
Proof.
  unfold Billing.sortedHistory. split; [apply sortBy_perm|]. split.
  - eapply Sorted_ind with (P := Sorted _); [constructor | | apply sortBy_sorted].
    intros a l _ IH Hd. constructor; [exact IH|].
    destruct Hd as [|b l Hab]; constructor.
    unfold byKey, newDate, msPerDay in Hab. lia.
  - intros d.
    assert (Hext : forall a : Invoice,
              (date a =? d) = (- newDate (date a) =? - newDate d)).
    { intros a. unfold newDate, msPerDay.
      destruct (Z.eqb_spec (date a) d), (Z.eqb_spec (- (date a * 86400000)) (- (d * 86400000)));
        try reflexivity; lia. }
    etransitivity; [apply filter_ext, Hext|].
    etransitivity; [apply sortBy_stable|].
    symmetry. apply filter_ext, Hext.
Qed.

(** * Further properties of the product form *)

(** X15. The form saves nothing when the name is absent or empty, or when
    the price is 0 (a price of 0 is taken for a missing price): the catalog
    and the history stay as they were, when adding and when editing. *)
Theorem save_needs_name_and_price
    (app : App.State) (e : Inventory.Editing) (uuid : string) (now : Instant) :
  Inventory.editName e = None \/ Inventory.editName e = Some "" \/
  Inventory.editPrice e = 0 ->
  Inventory.handleSave app e uuid now = app.
Proof.
  unfold Inventory.handleSave. intros [Hn|[Hn|Hp]].
  - now rewrite Hn.
  - now rewrite Hn.
  - destruct (Inventory.editName e); [|reflexivity].
    rewrite Hp. cbn. now rewrite orb_true_r.
Qed.

Lemma save_needs_name_and_price_witness :
  let e := Inventory.mkEditing None (Some "Muestra gratis") "General" 10 5 0 600 in
  Inventory.editPrice e = 0 /\
  Inventory.handleSave Sample.shop e "u-1" Sample.noon = Sample.shop.
Proof.
  cbv zeta. split; [reflexivity|].
  apply (save_needs_name_and_price Sample.shop
           (Inventory.mkEditing None (Some "Muestra gratis") "General" 10 5 0 600)
           "u-1" Sample.noon).
  right. right. reflexivity.
Defined.

(** X16. Saving a new product (a form not opened on an existing product,
    with a name and a non-zero price) appends exactly one product at the end
    of the catalog: it takes the fresh id, the entered name, stock, price
    and cost, today's date as lastRestocked, "General" for an empty
    category, and 5 for a minimum stock of 0, so its minStock is never 0.
    The products already there and the history are untouched. *)
Theorem save_new_product
    (app : App.State) (e : Inventory.Editing) (name' uuid : string) (now : Instant) :
  Inventory.origin e = None ->
  Inventory.editName e = Some name' ->
  name' <> "" ->
  Inventory.editPrice e <> 0 ->
  exists p,
    Inventory.handleSave app e uuid now
    = App.mkState (App.products app ++ [p]) (App.invoices app) /\
    id p = uuid /\ name p = name' /\
    currentStock p = Inventory.editCurrentStock e /\
    price p = Inventory.editPrice e /\ cost p = Inventory.editCost e /\
    lastRestocked p = toISODate now /\
    category p <> "" /\ minStock p <> 0 /\
    (Inventory.editMinStock e <> 0 -> minStock p = Inventory.editMinStock e) /\
    (Inventory.editCategory e <> "" -> category p = Inventory.editCategory e) /\
    (Inventory.editMinStock e = 0 -> minStock p = 5) /\
    (Inventory.editCategory e = "" -> category p = "General").
Proof.
  intros Ho Hn Hne Hp. unfold Inventory.handleSave. rewrite Hn, Ho.
  destruct (String.eqb_spec name' ""); [contradiction|].
  destruct (Z.eqb_spec (Inventory.editPrice e) 0); [contradiction|]. cbn [orb].
  eexists. split; [reflexivity|]. unfold Inventory.newProduct. cbn.
  repeat split.
  - destruct (String.eqb_spec (Inventory.editCategory e) ""); [discriminate | assumption].
  - destruct (Z.eqb_spec (Inventory.editMinStock e) 0); [discriminate | assumption].
  - intros H. now destruct (Z.eqb_spec (Inventory.editMinStock e) 0).
  - intros H. now destruct (String.eqb_spec (Inventory.editCategory e) "").
  - intros H. now destruct (Z.eqb_spec (Inventory.editMinStock e) 0).
  - intros H. now destruct (String.eqb_spec (Inventory.editCategory e) "").
Qed.

Lemma save_new_product_witness :
  let e := Inventory.mkEditing None (Some "Te Verde") "" 4 0 900 600 in
  exists p,
    Inventory.handleSave Sample.shop e "9" Sample.noon
    = App.mkState (INITIAL_PRODUCTS ++ [p]) [] /\
    id p = "9" /\ category p = "General" /\ minStock p = 5.
Proof.
  cbv zeta.
  destruct (save_new_product Sample.shop
              (Inventory.mkEditing None (Some "Te Verde") "" 4 0 900 600)
              "Te Verde" "9" Sample.noon eq_refl eq_refl)
    as (p & Hs & Hid & _ & _ & _ & _ & _ & _ & _ & _ & _ & Hm & Hc).
  - discriminate.
  - discriminate.
  - exists p. split; [exact Hs|]. split; [exact Hid|].
    split; [apply Hc | apply Hm]; reflexivity.
Defined.

(** X17. Opening the form on a product and saving it unchanged leaves the
    state as it was, provided the product's id is not empty and no other
    product of the catalog carries it. *)
Theorem edit_without_change_is_identity
    (app : App.State) (p : Product) (uuid : string) (now : Instant) :
  id p <> "" ->
  (forall q, In q (App.products app) -> id q = id p -> q = p) ->
  Inventory.handleSave app (Inventory.openEditModal p) uuid now = app.
Proof.
  intros Hid Huniq. unfold Inventory.handleSave, Inventory.openEditModal.
  cbn [Inventory.editName Inventory.editPrice Inventory.origin
       Inventory.editCategory Inventory.editCurrentStock Inventory.editMinStock
       Inventory.editCost].
  destruct (String.eqb (name p) "" || (price p =? 0)); [reflexivity|].
  destruct (String.eqb_spec (id p) ""); [contradiction|].
  destruct app as [ps invs]. unfold App.handleUpdateProduct.
  cbn [App.products App.invoices id] in *. f_equal.
  rewrite <- (map_id ps) at 2. apply map_ext_in. intros q Hq.
  destruct (String.eqb_spec (id q) (id p)) as [E|E]; [|reflexivity].
  destruct p. symmetry. now apply Huniq.
Qed.

Lemma edit_without_change_is_identity_witness :
  id Sample.bread <> "" /\
  (forall q, In q (App.products Sample.shop) -> id q = id Sample.bread -> q = Sample.bread) /\
  Inventory.handleSave Sample.shop (Inventory.openEditModal Sample.bread) "u-1" Sample.noon
  = Sample.shop.
Proof.
  assert (H1 : id Sample.bread <> "") by discriminate.
  assert (H2 : forall q, In q (App.products Sample.shop) ->
                         id q = id Sample.bread -> q = Sample.bread).
  { intros q Hq. cbn in Hq.
    destruct Hq as [<-|Hq]; [discriminate|].
    destruct Hq as [<-|Hq]; [reflexivity|].
    repeat (destruct Hq as [<-|Hq]; [discriminate|]). destruct Hq. }
  split; [exact H1|]. split; [exact H2|].
  exact (edit_without_change_is_identity Sample.shop Sample.bread "u-1" Sample.noon H1 H2).
Defined.

(** X18. Whatever the form holds, saving never touches the history and
    never removes or reorders products: the catalog's ids afterwards are the
    ids before, or the ids before followed by the fresh id. *)
Theorem form_save_never_removes
    (app : App.State) (e : Inventory.Editing) (uuid : string) (now : Instant) :
  App.invoices (Inventory.handleSave app e uuid now) = App.invoices app /\
  (map id (App.products (Inventory.handleSave app e uuid now))
   = map id (App.products app) \/
   map id (App.products (Inventory.handleSave app e uuid now))
   = map id (App.products app) ++ [uuid]).
Proof.
  assert (Hupd : forall u, map id (App.products (App.handleUpdateProduct app u))
                           = map id (App.products app)).
  { intros u. unfold App.handleUpdateProduct. cbn [App.products].
    rewrite map_map. apply map_ext. intros q.
    destruct (String.eqb_spec (id q) (id u)) as [E|E]; [now rewrite E | reflexivity]. }
  unfold Inventory.handleSave.
  destruct (Inventory.editName e) as [name'|]; [|now split; [|left]].
  destruct (String.eqb name' "" || (Inventory.editPrice e =? 0)); [now split; [|left]|].
  destruct (Inventory.origin e) as [[id' restocked]|].
  - destruct (String.eqb id' "").
    + split; [reflexivity|]. right. cbn. now rewrite map_app.
    + split; [reflexivity|]. left. apply Hupd.
  - split; [reflexivity|]. right. cbn. now rewrite map_app.
Qed.

(** * Further properties of the chart series *)

(** ** The date-keyed map *)

Section DateMapFacts.

Context {V : Type}.

Lemma Map_get_keys (m : DateMap V) (k : ISODate) :
  Map_get m k = None <-> ~ In k (map fst m).
Proof.
  induction m as [|[k' v'] m IH]; cbn; [tauto|].
  destruct (Z.eqb_spec k' k) as [E|E].
  - split; [discriminate | intros H; destruct H; now left].
  - rewrite IH. tauto.
Qed.

Lemma Map_set_keys (m : DateMap V) (k : ISODate) (v : V) :
  map fst (Map_set m k v)
  = match Map_get m k with
    | Some _ => map fst m
    | None => map fst m ++ [k]
    end.
Proof.
  induction m as [|[k' v'] m IH]; cbn; [reflexivity|].
  destruct (Z.eqb_spec k' k) as [E|E]; cbn; [now rewrite E|].
  rewrite IH. now destruct (Map_get m k).
Qed.

Lemma Map_set_NoDup (m : DateMap V) (k : ISODate) (v : V) :
  NoDup (map fst m) -> NoDup (map fst (Map_set m k v)).
Proof.
  intros Hnd. rewrite Map_set_keys.
  destruct (Map_get m k) eqn:Hg; [exact Hnd|].
  apply NoDup_snoc; [exact Hnd|]. now apply Map_get_keys.
Qed.

Lemma Map_set_In_keys (m : DateMap V) (k k' : ISODate) (v : V) :
  In k' (map fst (Map_set m k v)) <-> k' = k \/ In k' (map fst m).
Proof.
  rewrite Map_set_keys. destruct (Map_get m k) eqn:Hg.
  - split; [tauto|]. intros [->|H]; [|exact H].
    destruct (in_dec Z.eq_dec k (map fst m)) as [Hin|Hout]; [exact Hin|].
    apply Map_get_keys in Hout. congruence.
  - rewrite in_app_iff. cbn. intuition.
Qed.

(** Replacing the value at [k] moves an additive measure of the map by the
    difference between the new value and the one [Map_get] returned. *)
Lemma Map_set_total (f : V -> Z) (m : DateMap V) (k : ISODate) (v : V) :
  Chart.total (map (fun e => f (snd e)) (Map_set m k v))
  = Chart.total (map (fun e => f (snd e)) m)
    - match Map_get m k with Some o => f o | None => 0 end
    + f v.
Proof.
  unfold Chart.total. induction m as [|[k' v'] m IH]; cbn; [lia|].
  destruct (Z.eqb_spec k' k) as [E|E]; cbn; [lia|]. rewrite IH. lia.
Qed.

End DateMapFacts.

Lemma total_perm (l l' : list Z) :
  Permutation l l' -> Chart.total l = Chart.total l'.
Proof.
  unfold Chart.total. induction 1; cbn; lia.
Qed.

Lemma total_app (l l' : list Z) :
  Chart.total (l ++ l') = Chart.total l + Chart.total l'.
Proof. unfold Chart.total. induction l; cbn; lia. Qed.

(** ** Grouping by date conserves the totals *)

Lemma dataMap_fold_totals (l : list Invoice) (acc : DateMap (Z * Z)) :
  let m :=
    fold_left
      (fun m inv =>
         let current :=
           match Map_get m (date inv) with
           | Some c => c
           | None => (0, 0)
           end in
         let current' :=
           match type inv with
           | SALE => (fst current + totalAmount inv, snd current)
           | PURCHASE => (fst current, snd current + totalAmount inv)
           end in
         Map_set m (date inv) current')
      l acc in
  Chart.total (map (fun e => fst (snd e)) m)
  = Chart.total (map (fun e => fst (snd e)) acc)
    + Chart.total (map Chart.saleAmount l) /\
  Chart.total (map (fun e => snd (snd e)) m)
  = Chart.total (map (fun e => snd (snd e)) acc)
    + Chart.total (map Chart.purchaseAmount l).
Proof.
  cbv zeta. revert acc. induction l as [|inv l IH]; intros acc.
  - cbn [fold_left map]. unfold Chart.total. cbn [fold_right]. lia.
  - cbn [fold_left map]. destruct (IH (Map_set acc (date inv)
        match type inv with
        | SALE => (fst match Map_get acc (date inv) with Some c => c | None => (0, 0) end
                   + totalAmount inv,
                   snd match Map_get acc (date inv) with Some c => c | None => (0, 0) end)
        | PURCHASE => (fst match Map_get acc (date inv) with Some c => c | None => (0, 0) end,
                       snd match Map_get acc (date inv) with Some c => c | None => (0, 0) end
                       + totalAmount inv)
        end)) as [IHs IHp].
    rewrite IHs, IHp.
    rewrite (Map_set_total (fun v : Z * Z => fst v)),
            (Map_set_total (fun v : Z * Z => snd v)).
    unfold Chart.saleAmount, Chart.purchaseAmount.
    change (Chart.total (?a :: ?r)) with (a + Chart.total r).
    destruct (Map_get acc (date inv)) as [[s p]|]; destruct (type inv); cbn; lia.
Qed.

Lemma totalSales_as_total (l : list Invoice) :
  Dashboard.totalSales l = Chart.total (map Chart.saleAmount l).
Proof.
  unfold Dashboard.totalSales, Chart.total.
  induction l as [|inv l IH]; [reflexivity|]. cbn [filter map fold_right].
  unfold Chart.saleAmount at 1. destruct (type inv); cbn [isSale].
  - cbn [fold_left]. rewrite fold_left_add_shift, IH. lia.
  - rewrite IH. lia.
Qed.

Lemma totalPurchases_as_total (l : list Invoice) :
  Dashboard.totalPurchases l = Chart.total (map Chart.purchaseAmount l).
Proof.
  unfold Dashboard.totalPurchases, Chart.total.
  induction l as [|inv l IH]; [reflexivity|]. cbn [filter map fold_right].
  unfold Chart.purchaseAmount at 1. destruct (type inv); cbn [isPurchase].
  - rewrite IH. lia.
  - cbn [fold_left]. rewrite fold_left_add_shift, IH. lia.
Qed.

(** X19. The financial chart loses nothing and counts nothing twice: over
    the points before the range filter, the sales add up to totalSales and
    the purchases to totalPurchases, so their difference is netProfit. *)
Theorem financial_points_add_up (invoices : list Invoice) :
  Chart.total (Series.salesOf (Dashboard.historical invoices))
  = Dashboard.totalSales invoices /\
  Chart.total (Chart.purchasesOf (Dashboard.historical invoices))
  = Dashboard.totalPurchases invoices /\
  Chart.total (Series.salesOf (Dashboard.historical invoices))
  - Chart.total (Chart.purchasesOf (Dashboard.historical invoices))
  = Dashboard.netProfit invoices.
Proof.
  assert (Hs : Chart.total (Series.salesOf (Dashboard.historical invoices))
               = Dashboard.totalSales invoices).
  { unfold Series.salesOf, Dashboard.historical.
    rewrite (total_perm _ _ (Permutation_map _ (sortBy_perm _ _))), map_map.
    cbn [Dashboard.sales orZero]. unfold Dashboard.dataMap.
    rewrite (proj1 (dataMap_fold_totals _ [])). cbn [map].
    rewrite (total_perm _ _ (Permutation_map _ (sortBy_perm _ invoices))).
    rewrite totalSales_as_total. unfold Chart.total at 1. cbn. lia. }
  assert (Hp : Chart.total (Chart.purchasesOf (Dashboard.historical invoices))
               = Dashboard.totalPurchases invoices).
  { unfold Chart.purchasesOf, Dashboard.historical.
    rewrite (total_perm _ _ (Permutation_map _ (sortBy_perm _ _))), map_map.
    cbn [Dashboard.purchases orZero]. unfold Dashboard.dataMap.
    rewrite (proj2 (dataMap_fold_totals _ [])). cbn [map].
    rewrite (total_perm _ _ (Permutation_map _ (sortBy_perm _ invoices))).
    rewrite totalPurchases_as_total. unfold Chart.total at 1. cbn. lia. }
  split; [exact Hs|]. split; [exact Hp|].
  unfold Dashboard.netProfit. lia.
Qed.

Lemma rawMap_fold_total (sel : string) (l : list Invoice) (acc : DateMap Z) :
  Chart.total
    (map (fun e => snd e)
       (fold_left
          (fun m inv =>
             match type inv with
             | SALE =>
                 let qty := ProductAnalytics.quantityOf inv sel in
                 Map_set m (date inv) (orZero (Map_get m (date inv)) + qty)
             | PURCHASE => m
             end)
          l acc))
  = Chart.total (map (fun e => snd e) acc)
    + Chart.total (map (Chart.soldQuantity sel) l).
Proof.
  revert acc. induction l as [|inv l IH]; intros acc.
  - cbn [fold_left map]. unfold Chart.total. cbn [fold_right]. lia.
  - cbn [fold_left map]. rewrite IH. unfold Chart.soldQuantity at 2.
    change (Chart.total (?a :: ?r)) with (a + Chart.total r).
    destruct (type inv); [|lia]. cbv zeta.
    rewrite (Map_set_total (fun v : Z => v)).
    destruct (Map_get acc (date inv)); cbn [orZero]; lia.
Qed.

Lemma totalSold_as_total (invoices : list Invoice) (sel : string) :
  ProductAnalytics.totalSold invoices sel
  = Chart.total (map (Chart.soldQuantity sel)
                     (ProductAnalytics.productInvoices invoices sel)).
Proof.
  unfold ProductAnalytics.totalSold, Chart.total.
  induction (ProductAnalytics.productInvoices invoices sel) as [|inv l IH];
    [reflexivity|].
  cbn [filter map fold_right]. unfold Chart.soldQuantity at 1.
  destruct (type inv); cbn [isSale].
  - cbn [fold_left]. rewrite fold_left_add_shift, IH. lia.
  - rewrite IH. lia.
Qed.

(** X20. The product chart loses nothing and counts nothing twice: over the
    points before the range filter, the quantities add up to totalSold, the
    figure of the "units sold" card. *)
Theorem product_points_add_up (invoices : list Invoice) (selectedProductId : string) :
  Chart.total (Series.realOf (ProductAnalytics.historical invoices selectedProductId))
  = ProductAnalytics.totalSold invoices selectedProductId.
Proof.
  unfold Series.realOf, ProductAnalytics.historical.
  rewrite (total_perm _ _ (Permutation_map _ (sortBy_perm _ _))), map_map.
  cbn [ProductAnalytics.real orZero]. unfold ProductAnalytics.rawMap.
  rewrite rawMap_fold_total, totalSold_as_total.
  unfold Chart.total at 1. cbn. lia.
Qed.

(** ** One point per date, in ascending order *)

Lemma dataMap_keys (invoices : list Invoice) :
  NoDup (map fst (Dashboard.dataMap invoices)) /\
  forall d, In d (map fst (Dashboard.dataMap invoices))
            <-> exists inv, In inv invoices /\ date inv = d.
Proof.
  unfold Dashboard.dataMap.
  set (sorted := sortBy (fun a => newDate (date a)) invoices).
  assert (Hsorted : forall inv, In inv sorted <-> In inv invoices)
    by (intros inv; apply In_sortBy).
  assert (H : forall l acc,
            NoDup (map fst acc) ->
            let m :=
              fold_left
                (fun m inv =>
                   let current :=
                     match Map_get m (date inv) with
                     | Some c => c
                     | None => (0, 0)
                     end in
                   let current' :=
                     match type inv with
                     | SALE => (fst current + totalAmount inv, snd current)
                     | PURCHASE => (fst current, snd current + totalAmount inv)
                     end in
                   Map_set m (date inv) current')
                l acc in
            NoDup (map fst m) /\
            forall d, In d (map fst m)
                      <-> In d (map fst acc) \/ exists inv, In inv l /\ date inv = d).
  { induction l as [|inv l IH]; intros acc Hacc; cbv zeta.
    - cbn. split; [exact Hacc|]. intros d. split; [tauto|].
      intros [H|(inv & [] & _)]. exact H.
    - cbn [fold_left]. edestruct IH as [Hnd Hin]; [|split; [exact Hnd|]].
      + now apply Map_set_NoDup.
      + intros d. rewrite Hin, Map_set_In_keys. cbn [In]. split.
        * intros [[->|H]|(i & Hi & Hd)]; eauto.
        * intros [H|(i & [<-|Hi] & Hd)]; eauto. }
  destruct (H sorted [] ltac:(constructor)) as [Hnd Hin].
  split; [exact Hnd|]. intros d. rewrite Hin. cbn. split.
  - intros [[]|(inv & Hi & Hd)]. exists inv. split; [now apply Hsorted | exact Hd].
  - intros (inv & Hi & Hd). right. exists inv. split; [now apply Hsorted | exact Hd].
Qed.

Lemma rawMap_keys (invoices : list Invoice) (sel : string) :
  NoDup (map fst (ProductAnalytics.rawMap invoices sel)) /\
  forall d, In d (map fst (ProductAnalytics.rawMap invoices sel))
            <-> exists inv, In inv invoices /\ Chart.sells sel inv /\ date inv = d.
Proof.
  unfold ProductAnalytics.rawMap.
  assert (H : forall l acc,
            NoDup (map fst acc) ->
            let m :=
              fold_left
                (fun m inv =>
                   match type inv with
                   | SALE =>
                       let qty := ProductAnalytics.quantityOf inv sel in
                       Map_set m (date inv) (orZero (Map_get m (date inv)) + qty)
                   | PURCHASE => m
                   end)
                l acc in
            NoDup (map fst m) /\
            forall d, In d (map fst m)
                      <-> In d (map fst acc) \/
                          exists inv, In inv l /\ type inv = SALE /\ date inv = d).
  { induction l as [|inv l IH]; intros acc Hacc; cbv zeta.
    - cbn. split; [exact Hacc|]. intros d. split; [tauto|].
      intros [H|(inv & [] & _)]. exact H.
    - cbn [fold_left]. destruct (type inv) eqn:Hty.
      + edestruct IH as [Hnd Hin]; [|split; [exact Hnd|]].
        * now apply Map_set_NoDup.
        * intros d. rewrite Hin, Map_set_In_keys. cbn [In]. split.
          -- intros [[->|H]|(i & Hi & Ht & Hd)]; eauto 6.
          -- intros [H|(i & [<-|Hi] & Ht & Hd)]; eauto 6.
      + destruct (IH acc Hacc) as [Hnd Hin]. split; [exact Hnd|].
        intros d. rewrite Hin. cbn [In]. split.
        * intros [H|(i & Hi & Ht & Hd)]; eauto 6.
        * intros [H|(i & [<-|Hi] & Ht & Hd)]; eauto 6. congruence. }
  destruct (H (ProductAnalytics.productInvoices invoices sel) [] ltac:(constructor))
    as [Hnd Hin].
  split; [exact Hnd|]. intros d. rewrite Hin. cbn [map In].
  unfold ProductAnalytics.productInvoices, Chart.sells. split.
  - intros [[]|(inv & Hi & Ht & Hd)]. apply filter_In in Hi. destruct Hi as [Hi Hex].
    apply existsb_exists in Hex. destruct Hex as (i & Hii & Heq).
    apply String.eqb_eq in Heq. exists inv. eauto 8.
  - intros (inv & Hi & (Ht & i & Hii & Heq) & Hd). right. exists inv.
    split; [|now split]. apply filter_In. split; [exact Hi|].
    apply existsb_exists. exists i. split; [exact Hii|]. now apply String.eqb_eq.
Qed.

Lemma le_nodup_strict (l : list Z) :
  StronglySorted Z.le l -> NoDup l -> StronglySorted Z.lt l.
Proof.
  induction 1 as [|a l Hl IH Ha]; intros Hnd; constructor.
  - apply IH. now inversion Hnd.
  - inversion Hnd as [|? ? Hnot _]; subst. rewrite Forall_forall in *.
    intros b Hb. specialize (Ha b Hb).
    assert (a <> b) by (intros ->; contradiction). lia.
Qed.

Lemma strict_before_last (ds : list Z) (d : Z) :
  StronglySorted Z.lt (ds ++ [d]) -> Forall (fun a => a < d) ds.
Proof.
  induction ds as [|a ds IH]; cbn; intros H; [constructor|].
  inversion H as [|? ? Hs Ha]; subst. constructor; [|now apply IH].
  rewrite Forall_forall in Ha. apply Ha. apply in_or_app. right. now left.
Qed.

Lemma strict_snoc (l : list Z) (e : Z) :
  StronglySorted Z.lt l -> Forall (fun a => a < e) l ->
  StronglySorted Z.lt (l ++ [e]).
Proof.
  induction 1 as [|a l Hl IH Ha]; cbn; intros He.
  - repeat constructor.
  - inversion He; subst. constructor; [now apply IH|].
    apply Forall_app. split; [exact Ha|]. now repeat constructor.
Qed.

Lemma futures_snoc (g : nat -> Z) (n : nat) (ds : list Z) (d : Z) :
  ds ++ [d] ++ map g (seq 1 (S n))
  = (ds ++ [d] ++ map g (seq 1 n)) ++ [g (S n)].
Proof.
  rewrite seq_S, map_app. cbn [map Nat.add]. now rewrite <- !app_assoc.
Qed.

Lemma strict_futures (n : nat) (ds : list Z) (d : Z) :
  StronglySorted Z.lt (ds ++ [d]) ->
  StronglySorted Z.lt (ds ++ [d] ++ map (fun i => d + Z.of_nat i) (seq 1 n)) /\
  Forall (fun a => a <= d + Z.of_nat n)
         (ds ++ [d] ++ map (fun i => d + Z.of_nat i) (seq 1 n)).
Proof.
  intros Hs. induction n as [|n [IHs IHb]].
  - cbn [seq map]. rewrite app_nil_r. split; [exact Hs|].
    apply Forall_app. split.
    + eapply Forall_impl; [|exact (strict_before_last _ _ Hs)]. cbn. intros. lia.
    + repeat constructor. lia.
  - rewrite futures_snoc. split.
    + apply strict_snoc; [exact IHs|].
      eapply Forall_impl; [|exact IHb]. cbn. intros. lia.
    + apply Forall_app. split.
      * eapply Forall_impl; [|exact IHb]. cbn. intros. lia.
      * repeat constructor. lia.
Qed.

Section DatedRecords.

Context {A : Type} (dateOf : A -> ISODate).

Lemma sortBy_dates_strict (l : list A) :
  NoDup (map dateOf l) ->
  StronglySorted Z.lt (map dateOf (sortBy (fun a => newDate (dateOf a)) l)).
Proof.
  intros Hnd. apply le_nodup_strict.
  - pose proof (byKey_strongly _ _ (sortBy_sorted (fun a => newDate (dateOf a)) l)) as Hs.
    induction Hs as [|a r Hr IH Ha]; cbn; constructor; [exact IH|].
    apply Forall_map. eapply Forall_impl; [|exact Ha].
    unfold byKey, newDate, msPerDay. cbn. intros. lia.
  - eapply Permutation_NoDup; [|exact Hnd].
    apply Permutation_map. symmetry. apply sortBy_perm.
Qed.

Lemma filter_dates_strict (f : A -> bool) (l : list A) :
  StronglySorted Z.lt (map dateOf l) ->
  StronglySorted Z.lt (map dateOf (filter f l)).
Proof.
  induction l as [|a l IH]; cbn; intros H; [constructor|].
  inversion H as [|? ? Hs Ha]; subst.
  destruct (f a); cbn; [|now apply IH]. constructor; [now apply IH|].
  rewrite Forall_forall in *. intros d Hd. apply Ha.
  apply in_map_iff in Hd. destruct Hd as (x & <- & Hx).
  apply filter_In in Hx. apply in_map. tauto.
Qed.

End DatedRecords.

Lemma fin_historical_dates (invoices : list Invoice) :
  Chart.strictlyAscending (map Dashboard.date (Dashboard.historical invoices)).
Proof.
  unfold Dashboard.historical. apply sortBy_dates_strict.
  rewrite map_map. cbn [Dashboard.date]. apply dataMap_keys.
Qed.

Lemma prod_historical_dates (invoices : list Invoice) (sel : string) :
  Chart.strictlyAscending
    (map ProductAnalytics.date (ProductAnalytics.historical invoices sel)).
Proof.
  unfold ProductAnalytics.historical. apply sortBy_dates_strict.
  rewrite map_map. cbn [ProductAnalytics.date]. apply rawMap_keys.
Qed.

(** X21. Before the range filter each chart has exactly one point per
    date: the dates of the financial points are the dates of the invoices,
    those of the product points are the dates of the SALE invoices that have
    a line for the product, each date once, in ascending order. *)
Theorem one_point_per_date (invoices : list Invoice) (selectedProductId : string) :
  Chart.strictlyAscending (map Dashboard.date (Dashboard.historical invoices)) /\
  (forall d, In d (map Dashboard.date (Dashboard.historical invoices))
             <-> exists inv, In inv invoices /\ date inv = d) /\
  Chart.strictlyAscending
    (map ProductAnalytics.date
         (ProductAnalytics.historical invoices selectedProductId)) /\
  (forall d, In d (map ProductAnalytics.date
                       (ProductAnalytics.historical invoices selectedProductId))
             <-> exists inv, In inv invoices /\
                             Chart.sells selectedProductId inv /\ date inv = d).
Proof.
  split; [apply fin_historical_dates|]. split; [|split; [apply prod_historical_dates|]].
  - intros d. rewrite <- (proj2 (dataMap_keys invoices) d).
    unfold Dashboard.historical.
    rewrite (in_map_iff Dashboard.date), (in_map_iff fst). split.
    + intros (pt & <- & Hpt). apply In_sortBy, in_map_iff in Hpt.
      destruct Hpt as (e & <- & He). now exists e.
    + intros (e & <- & He). eexists. split; [|apply In_sortBy, in_map; exact He].
      reflexivity.
  - intros d. rewrite <- (proj2 (rawMap_keys invoices selectedProductId) d).
    unfold ProductAnalytics.historical.
    rewrite (in_map_iff ProductAnalytics.date), (in_map_iff fst). split.
    + intros (pt & <- & Hpt). apply In_sortBy, in_map_iff in Hpt.
      destruct Hpt as (e & <- & He). now exists e.
    + intros (e & <- & He). eexists. split; [|apply In_sortBy, in_map; exact He].
      reflexivity.
Qed.

Lemma firstn_snoc_futures {A : Type} (h : list A) (x y : A) (fut : list A) :
  firstn (List.length (h ++ [x])) (h ++ [y] ++ fut) = h ++ [y].
Proof.
  rewrite app_assoc.
  replace (List.length (h ++ [x])) with (List.length (h ++ [y]))
    by (rewrite !length_app; reflexivity).
  now rewrite firstn_app, firstn_all, Nat.sub_diag, firstn_0, app_nil_r.
Qed.

Lemma futures_dates_steady (zone : TimeZone) (d : ISODate) (n : nat)
    (f : nat -> ISODate) :
  (forall i, f i = toISODate (addDays zone (newDate d) (Z.of_nat i))) ->
  steadyOver zone (newDate d) 1 (Z.of_nat n) ->
  map f (seq 1 n) = map (fun i => d + Z.of_nat i) (seq 1 n).
Proof.
  intros Hf Hs. apply map_ext_in. intros i Hi. apply in_seq in Hi.
  rewrite Hf, projected_date. apply projectedDate_steady, Hs. lia.
Qed.

(** X22. In every zone the filtered points of either chart have strictly
    ascending dates.  When the zone's offset does not change over the
    projected days after the join point (always, in a zone without
    transitions), the whole series drawn has strictly ascending dates,
    projected points included: no date occurs twice and each projected point
    lies after every historical point. *)
Theorem chart_dates_ascend (zone : TimeZone)
    (invoices : list Invoice) (selectedProductId : string)
    (timeRange : TimeRange) (today : Instant) (random : nat -> Q) :
  let fin := Dashboard.inRange zone invoices timeRange today in
  let prod := ProductAnalytics.inRange zone invoices selectedProductId timeRange today in
  Chart.strictlyAscending (map Dashboard.date fin) /\
  Chart.strictlyAscending (map ProductAnalytics.date prod) /\
  ((forall join, lastItem fin = Some join ->
                 steadyOver zone (newDate (Dashboard.date join)) 1 5) ->
   Chart.strictlyAscending
     (map Dashboard.date
          (Dashboard.generateChartData zone invoices timeRange today random))) /\
  ((forall join, lastItem prod = Some join ->
                 steadyOver zone (newDate (ProductAnalytics.date join)) 1 4) ->
   Chart.strictlyAscending
     (map ProductAnalytics.date
          (ProductAnalytics.generateChartData zone invoices selectedProductId
             timeRange today random))).
Proof.
  cbv zeta. unfold Chart.strictlyAscending.
  assert (Hfin : StronglySorted Z.lt
                   (map Dashboard.date (Dashboard.inRange zone invoices timeRange today)))
    by (apply filter_dates_strict, fin_historical_dates).
  assert (Hprod : StronglySorted Z.lt
                    (map ProductAnalytics.date
                         (ProductAnalytics.inRange zone invoices selectedProductId
                            timeRange today)))
    by (apply filter_dates_strict, prod_historical_dates).
  split; [exact Hfin|]. split; [exact Hprod|]. split.
  - unfold Dashboard.generateChartData.
    set (fin := Dashboard.inRange zone invoices timeRange today) in *. clearbody fin.
    intros Hsteady.
    destruct (Nat.ltb_spec 2 (List.length fin)) as [Hlen|Hlen].
    + destruct (snoc_of_nonempty fin ltac:(lia)) as (h & x & ->).
      specialize (Hsteady x (lastItem_snoc h x)).
      rewrite fin_project_long by exact Hlen.
      rewrite !map_app, map_map in *. cbn [map Dashboard.date] in *.
      rewrite (futures_dates_steady zone (Dashboard.date x) 5)
        by (try exact Hsteady; intros i; reflexivity).
      now apply strict_futures.
    + now rewrite fin_project_short.
  - unfold ProductAnalytics.generateChartData.
    set (prod := ProductAnalytics.inRange zone invoices selectedProductId timeRange today)
      in *. clearbody prod.
    intros Hsteady.
    destruct (Nat.ltb_spec 1 (List.length prod)) as [Hlen|Hlen].
    + destruct (snoc_of_nonempty prod ltac:(lia)) as (h & x & ->).
      specialize (Hsteady x (lastItem_snoc h x)).
      rewrite prod_project_long by exact Hlen.
      rewrite !map_app, map_map in *. cbn [map ProductAnalytics.date] in *.
      rewrite (futures_dates_steady zone (ProductAnalytics.date x) 4)
        by (try exact Hsteady; intros i; reflexivity).
      now apply strict_futures.
    + now rewrite prod_project_short.
Qed.

Lemma chart_dates_ascend_witness :
  let today := addDays utc Sample.noon 2 in
  (forall join, steadyOver utc (newDate (Dashboard.date join)) 1 5) /\
  (forall join, steadyOver utc (newDate (ProductAnalytics.date join)) 1 4) /\
  Chart.strictlyAscending
    (map Dashboard.date
         (Dashboard.generateChartData utc Sample.threeDays MONTH today Sample.half)) /\
  Chart.strictlyAscending
    (map ProductAnalytics.date
         (ProductAnalytics.generateChartData utc Sample.threeDays "1" MONTH today
            Sample.half)).
Proof.
  cbv zeta.
  assert (H1 : forall join : Dashboard.ChartPoint,
            steadyOver utc (newDate (Dashboard.date join)) 1 5)
    by (intros join n _; reflexivity).
  assert (H2 : forall join : ProductAnalytics.ChartPoint,
            steadyOver utc (newDate (ProductAnalytics.date join)) 1 4)
    by (intros join n _; reflexivity).
  split; [exact H1|]. split; [exact H2|].
  destruct (chart_dates_ascend utc Sample.threeDays "1" MONTH
              (addDays utc Sample.noon 2) Sample.half) as (_ & _ & Hf & Hp).
  split; [apply Hf | apply Hp]; intros join _; [apply H1 | apply H2].
Defined.

(** X23. A projection only adds: the series drawn starts with the filtered
    points, with their dates and real figures untouched, and is longer than
    the filtered series by 5 (financial) or 4 (product) points when a
    projection is made and by none otherwise. *)
Theorem projection_only_appends (zone : TimeZone)
    (invoices : list Invoice) (selectedProductId : string)
    (timeRange : TimeRange) (today : Instant) (random : nat -> Q) :
  let fin := Dashboard.inRange zone invoices timeRange today in
  let out := Dashboard.generateChartData zone invoices timeRange today random in
  let prod := ProductAnalytics.inRange zone invoices selectedProductId timeRange today in
  let out' := ProductAnalytics.generateChartData zone invoices selectedProductId
                timeRange today random in
  (List.length out
   = List.length fin + (if (2 <? List.length fin)%nat then 5 else 0))%nat /\
  map (fun pt => (Dashboard.date pt, Dashboard.sales pt, Dashboard.purchases pt))
      (firstn (List.length fin) out)
  = map (fun pt => (Dashboard.date pt, Dashboard.sales pt, Dashboard.purchases pt))
        fin /\
  (List.length out'
   = List.length prod + (if (1 <? List.length prod)%nat then 4 else 0))%nat /\
  map (fun pt => (ProductAnalytics.date pt, ProductAnalytics.real pt))
      (firstn (List.length prod) out')
  = map (fun pt => (ProductAnalytics.date pt, ProductAnalytics.real pt)) prod.
Proof.
  cbv zeta. unfold Dashboard.generateChartData, ProductAnalytics.generateChartData.
  set (fin := Dashboard.inRange zone invoices timeRange today). clearbody fin.
  set (prod := ProductAnalytics.inRange zone invoices selectedProductId timeRange today).
  clearbody prod.
  assert (Hf : (List.length (Dashboard.project zone fin random)
                = List.length fin + (if (2 <? List.length fin)%nat then 5 else 0))%nat /\
               map (fun pt => (Dashboard.date pt, Dashboard.sales pt, Dashboard.purchases pt))
                   (firstn (List.length fin) (Dashboard.project zone fin random))
               = map (fun pt => (Dashboard.date pt, Dashboard.sales pt, Dashboard.purchases pt))
                     fin).
  { destruct (Nat.ltb_spec 2 (List.length fin)) as [Hlen|Hlen].
    - destruct (snoc_of_nonempty fin ltac:(lia)) as (h & x & ->).
      rewrite fin_project_long by exact Hlen. split.
      + rewrite !length_app, length_map, length_seq. cbn. lia.
      + rewrite firstn_snoc_futures, !map_app. reflexivity.
    - rewrite fin_project_short by exact Hlen. split; [lia|].
      now rewrite firstn_all. }
  assert (Hp : (List.length (ProductAnalytics.project zone prod random)
                = List.length prod + (if (1 <? List.length prod)%nat then 4 else 0))%nat /\
               map (fun pt => (ProductAnalytics.date pt, ProductAnalytics.real pt))
                   (firstn (List.length prod) (ProductAnalytics.project zone prod random))
               = map (fun pt => (ProductAnalytics.date pt, ProductAnalytics.real pt))
                     prod).
  { destruct (Nat.ltb_spec 1 (List.length prod)) as [Hlen|Hlen].
    - destruct (snoc_of_nonempty prod ltac:(lia)) as (h & x & ->).
      rewrite prod_project_long by exact Hlen. split.
      + rewrite !length_app, length_map, length_seq. cbn. lia.
      + rewrite firstn_snoc_futures, !map_app. reflexivity.
    - rewrite prod_project_short by exact Hlen. split; [lia|].
      now rewrite firstn_all. }
  tauto.
Qed.

Lemma cutoff_nesting (zone : TimeZone) (today : Instant) (t : Instant) :
  ((cutoffDate zone today WEEK <=? t) = true ->
   (cutoffDate zone today MONTH <=? t) = true) /\
  ((cutoffDate zone today MONTH <=? t) = true ->
   (cutoffDate zone today YEAR <=? t) = true).
Proof.
  unfold cutoffDate. rewrite !addDays_shift. cbn [rangeDays].
  pose proof (offsetShift_bound zone today (- (7))).
  pose proof (offsetShift_bound zone today (- (30))).
  pose proof (offsetShift_bound zone today (- (365))).
  unfold msPerDay in *. rewrite !Z.leb_le. lia.
Qed.

(** X24. The ranges are nested: every point a chart shows for the week it
    also shows for the month, and every point of the month for the year. *)
Theorem ranges_are_nested (zone : TimeZone)
    (invoices : list Invoice) (selectedProductId : string) (today : Instant) :
  incl (Dashboard.inRange zone invoices WEEK today)
       (Dashboard.inRange zone invoices MONTH today) /\
  incl (Dashboard.inRange zone invoices MONTH today)
       (Dashboard.inRange zone invoices YEAR today) /\
  incl (ProductAnalytics.inRange zone invoices selectedProductId WEEK today)
       (ProductAnalytics.inRange zone invoices selectedProductId MONTH today) /\
  incl (ProductAnalytics.inRange zone invoices selectedProductId MONTH today)
       (ProductAnalytics.inRange zone invoices selectedProductId YEAR today).
Proof.
  unfold incl, Dashboard.inRange, ProductAnalytics.inRange.
  repeat split; intros pt Hpt; apply filter_In in Hpt; destruct Hpt as [Hin Hc];
    apply filter_In; (split; [exact Hin|]).
  - now apply (cutoff_nesting zone today).
  - now apply (cutoff_nesting zone today).
  - now apply (cutoff_nesting zone today).
  - now apply (cutoff_nesting zone today).
Qed.

(** X25. A product that no SALE invoice has a line for has an empty chart,
    for every range, instant and random source, and a total of 0 units
    sold; PURCHASE invoices of the product do not count. *)
Theorem unsold_product_has_empty_chart (zone : TimeZone)
    (invoices : list Invoice) (selectedProductId : string)
    (timeRange : TimeRange) (today : Instant) (random : nat -> Q) :
  (forall inv, In inv invoices -> ~ Chart.sells selectedProductId inv) ->
  ProductAnalytics.generateChartData zone invoices selectedProductId timeRange today random
  = [] /\
  ProductAnalytics.totalSold invoices selectedProductId = 0.
Proof.
  intros Hno.
  assert (Hraw : ProductAnalytics.rawMap invoices selectedProductId = []).
  { destruct (ProductAnalytics.rawMap invoices selectedProductId) as [|e m] eqn:E;
      [reflexivity|].
    destruct (proj1 (proj2 (rawMap_keys invoices selectedProductId) (fst e)))
      as (inv & Hin & Hs & _).
    - rewrite E. now left.
    - destruct (Hno inv Hin Hs). }
  split.
  - unfold ProductAnalytics.generateChartData, ProductAnalytics.inRange,
      ProductAnalytics.historical. rewrite Hraw. reflexivity.
  - rewrite totalSold_as_total.
    assert (Ht : Chart.total
                   (map (fun e => snd e)
                        (ProductAnalytics.rawMap invoices selectedProductId))
                 = Chart.total (map (fun e : ISODate * Z => snd e) [])
                   + Chart.total
                       (map (Chart.soldQuantity selectedProductId)
                            (ProductAnalytics.productInvoices invoices selectedProductId)))
      by apply rawMap_fold_total.
    rewrite Hraw in Ht.
    cbn [map] in Ht. unfold Chart.total in Ht at 1 2. cbn [fold_right] in Ht. lia.
Qed.

Lemma unsold_product_has_empty_chart_witness :
  (forall inv, In inv [Sample.milkSale; Sample.milkPurchase] -> ~ Chart.sells "2" inv) /\
  ProductAnalytics.generateChartData utc [Sample.milkSale; Sample.milkPurchase] "2"
    MONTH Sample.noon Sample.half = [] /\
  ProductAnalytics.totalSold [Sample.milkSale; Sample.milkPurchase] "2" = 0.
Proof.
  assert (H : forall inv, In inv [Sample.milkSale; Sample.milkPurchase] ->
                          ~ Chart.sells "2" inv).
  { intros inv [<-|[<-|[]]] (Ht & i & Hi & Hid).
    - destruct Hi as [<-|[]]. discriminate.
    - discriminate. }
  split; [exact H|].
  exact (unsold_product_has_empty_chart utc [Sample.milkSale; Sample.milkPurchase] "2"
           MONTH Sample.noon Sample.half H).
Defined.

(** * Properties of the generated history *)

Lemma floorTimes_range (r : Q) (n : Z) :
  (0 <= r)%Q -> (r < 1)%Q -> 0 < n ->
  0 <= Mock.floorTimes r n < n.
Proof.
  intros H0 H1 Hn. unfold Mock.floorTimes.
  assert (Hn' : (0 < inject_Z n)%Q) by (change 0%Q with (inject_Z 0); now rewrite <- Zlt_Qlt).
  split.
  - change 0 with (Qfloor 0). apply Qfloor_resp_le.
    apply Qmult_le_0_compat; [exact H0 | now apply Qlt_le_weak].
  - rewrite Zlt_Qlt. eapply Qle_lt_trans; [apply Qfloor_le|].
    rewrite <- (Qmult_1_l (inject_Z n)) at 2.
    now apply Qmult_lt_compat_r.
Qed.

Lemma productAt_spec (index : Z) :
  0 <= index < 8 ->
  exists p,
    Mock.productAt index = Some p /\
    find (fun q => String.eqb (id q) (id p)) INITIAL_PRODUCTS = Some p /\
    0 < price p /\ 0 < cost p.
Proof.
  intros H.
  assert (Hc : index = 0 \/ index = 1 \/ index = 2 \/ index = 3 \/
               index = 4 \/ index = 5 \/ index = 6 \/ index = 7) by lia.
  repeat (destruct Hc as [->|Hc]; [eexists; repeat split; reflexivity|]).
  subst. eexists; repeat split; reflexivity.
Qed.

Lemma mockItems_spec (random : nat -> Q) (isSale : bool) :
  Mock.unitDraws random ->
  forall n k items totalAmount,
  exists more,
    Mock.mockItems random isSale n k items totalAmount
    = Some (items ++ more,
            totalAmount + fold_right Z.add 0 (map total more),
            (k + 2 * n)%nat) /\
    List.length more = n /\
    Forall (Mock.lineOk (if isSale then SALE else PURCHASE)) more.
Proof.
  intros Hr. induction n as [|n IH]; intros k items totalAmount.
  - exists []. cbn. rewrite app_nil_r, Z.add_0_r, Nat.add_0_r. auto.
  - cbn [Mock.mockItems].
    destruct (Hr k) as [Hk0 Hk1]. destruct (Hr (S k)) as [Hq0 Hq1].
    pose proof (floorTimes_range (random k) (Z.of_nat (List.length INITIAL_PRODUCTS))
                  Hk0 Hk1 ltac:(reflexivity)) as Hidx.
    change (Z.of_nat (List.length INITIAL_PRODUCTS)) with 8 in *.
    pose proof (floorTimes_range (random (S k)) 5 Hq0 Hq1 ltac:(lia)) as Hqty.
    destruct (productAt_spec _ Hidx) as (p & -> & Hfind & Hprice & Hcost).
    cbv zeta.
    set (qty := Mock.floorTimes (random (S k)) 5 + 1) in *.
    set (u := if isSale then price p else cost p).
    destruct (IH (S (S k)) (items ++ [mkInvoiceItem (id p) (name p) qty u (qty * u)])
                (totalAmount + qty * u)) as (more & -> & Hlen & Hall).
    exists (mkInvoiceItem (id p) (name p) qty u (qty * u) :: more).
    split; [|split].
    + rewrite <- app_assoc. cbn [app map fold_right total].
      f_equal. f_equal; [f_equal; lia | lia].
    + cbn. now rewrite Hlen.
    + constructor; [|exact Hall].
      assert (Hu : 0 < u) by (unfold u; destruct isSale; assumption).
      unfold Mock.lineOk. cbn. split; [unfold qty; lia|]. split; [unfold qty in *; nia|].
      exists p. repeat split; [exact Hfind|]. unfold u. now destruct isSale.
Qed.

Lemma toISODate_back (zone : TimeZone) (t : Instant) (k : Z) :
  toISODate (addDays zone t (- k)) = toISODate (t + offsetShift zone t (- k)) - k.
Proof.
  rewrite addDays_shift. unfold toISODate.
  replace (t + - k * msPerDay + offsetShift zone t (- k))
    with (t + offsetShift zone t (- k) + - k * msPerDay) by lia.
  rewrite Z.div_add by (unfold msPerDay; lia). lia.
Qed.

Lemma day_of_shifted (t sh : Z) :
  - (2 * msPerDay) < sh < 2 * msPerDay ->
  toISODate t - 2 <= toISODate (t + sh) <= toISODate t + 2.
Proof.
  intros Hsh. unfold toISODate.
  assert (Hpos : 0 < msPerDay) by (unfold msPerDay; lia).
  pose proof (Z.div_mod t msPerDay ltac:(lia)).
  pose proof (Z.mod_pos_bound t msPerDay Hpos).
  pose proof (Z.div_mod (t + sh) msPerDay ltac:(lia)).
  pose proof (Z.mod_pos_bound (t + sh) msPerDay Hpos).
  unfold msPerDay in *. lia.
Qed.

Lemma positive_total (l : list InvoiceItem) :
  (1 <= List.length l)%nat ->
  Forall (fun i => 0 < total i) l ->
  0 < fold_right Z.add 0 (map total l).
Proof.
  intros Hlen Hall. destruct l as [|i l]; [cbn in Hlen; lia|].
  inversion Hall as [|? ? Hi Hl]; subst. clear Hlen Hall.
  assert (0 <= fold_right Z.add 0 (map total l)).
  { induction Hl as [|j l Hj _ IH]; cbn; lia. }
  cbn. lia.
Qed.

Lemma mockLoop_spec (zone : TimeZone) (random : nat -> Q) (today : Instant) :
  Mock.unitDraws random ->
  forall count i k invoices,
  exists more,
    Mock.mockLoop zone random today count i k invoices = Some (invoices ++ more) /\
    List.length more = count /\
    Forall (Mock.invoiceOk zone today) more /\
    map inv_id more = map Mock.invoiceId (seq i count).
Proof.
  intros Hr. induction count as [|count IH]; intros i k invoices.
  - exists []. cbn. rewrite app_nil_r. auto.
  - cbn [Mock.mockLoop]. cbv zeta.
    destruct (Hr k) as [Hd0 Hd1]. destruct (Hr (S (S k))) as [Hn0 Hn1].
    pose proof (floorTimes_range (random k) 30 Hd0 Hd1 ltac:(lia)) as Hdays.
    pose proof (floorTimes_range (random (S (S k))) 3 Hn0 Hn1 ltac:(lia)) as Hnum.
    set (isSale := negb (Qle_bool (random (S k)) (3 # 10))).
    destruct (mockItems_spec random isSale Hr
                (Z.to_nat (Mock.floorTimes (random (S (S k))) 3 + 1))
                (S (S (S k))) [] 0) as (lines & -> & Hlen & Hlines).
    cbn [app]. rewrite Z.add_0_l.
    match goal with
    | |- context [Mock.mockLoop zone random today count (S i) ?k' (invoices ++ [?inv])] =>
        destruct (IH (S i) k' (invoices ++ [inv])) as (more & -> & Hmlen & Hmore & Hids);
        exists (inv :: more)
    end.
    split; [now rewrite <- app_assoc|]. split; [cbn; now rewrite Hmlen|]. split.
    + constructor; [|exact Hmore]. unfold Mock.invoiceOk.
      cbn [items type totalAmount date notes].
      split; [lia|]. split; [exact Hlines|]. split; [reflexivity|]. split.
      * apply positive_total; [lia|].
        eapply Forall_impl; [|exact Hlines]. intros j Hj. apply Hj.
      * rewrite toISODate_back.
        pose proof (day_of_shifted today _
                      (offsetShift_bound zone today (- Mock.floorTimes (random k) 30)))
          as Hb.
        split; [exists (Mock.floorTimes (random k) 30); split; [lia | reflexivity]|].
        split; [lia|]. split; [|reflexivity].
        intros Hsteady. rewrite Hsteady by lia. rewrite Z.add_0_r. lia.
    + cbn [map seq inv_id]. now rewrite Hids.
Qed.

(** X26. With draws in the unit interval, generating the mock history
    never reads a missing product: it returns 40 invoices, sorted by date,
    numbered inv-0 to inv-39.  Each has one to three lines, a positive
    totalAmount equal to the sum of its line totals and no note; each line
    has a quantity from 1 to 5 and is a snapshot of a seed product (its
    name, and its price for a SALE or its cost for a PURCHASE) with
    total = quantity * unitPrice.  Each date is the UTC day of the current
    local wall-clock time moved back by 0 to 29 calendar days: among the 30
    days ending today when the zone's offset does not change over them
    (always, in a zone without transitions), and in any zone between 31 days
    before today and 2 days after. *)
Theorem mock_history_is_well_formed (zone : TimeZone) (random : nat -> Q) (today : Instant) :
  Mock.unitDraws random ->
  exists invoices,
    Mock.generateMockInvoices zone random today = Some invoices /\
    List.length invoices = 40%nat /\
    Forall (Mock.invoiceOk zone today) invoices /\
    Sorted (fun a b => date a <= date b) invoices /\
    Permutation (map inv_id invoices) (map Mock.invoiceId (seq 0 40)).
Proof.
  intros Hr. unfold Mock.generateMockInvoices.
  destruct (mockLoop_spec zone random today Hr 40 0 0 [])
    as (l & -> & Hlen & Hall & Hids).
  cbn [app option_map]. eexists. split; [reflexivity|].
  split; [now rewrite length_sortBy|]. split; [|split].
  - apply Forall_forall. intros inv Hin. apply In_sortBy in Hin.
    rewrite Forall_forall in Hall. now apply Hall.
  - eapply Sorted_ind with (P := Sorted _); [constructor | | apply sortBy_sorted].
    intros a r _ IH Hd. constructor; [exact IH|].
    destruct Hd as [|b r Hab]; constructor.
    unfold byKey, newDate, msPerDay in Hab. lia.
  - rewrite <- Hids. apply Permutation_map, sortBy_perm.
Qed.

Lemma mock_history_is_well_formed_witness :
  Mock.unitDraws Sample.half /\
  steadyOver utc Sample.noon (-29) 0 /\
  exists invoices,
    Mock.generateMockInvoices utc Sample.half Sample.noon = Some invoices /\
    List.length invoices = 40%nat /\
    Forall (Mock.invoiceOk utc Sample.noon) invoices /\
    Sorted (fun a b => date a <= date b) invoices /\
    Permutation (map inv_id invoices) (map Mock.invoiceId (seq 0 40)).
Proof.
  assert (H : Mock.unitDraws Sample.half).
  { intros k. unfold Sample.half. split; lra. }
  split; [exact H|]. split; [intros n _; reflexivity|].
  exact (mock_history_is_well_formed utc Sample.half Sample.noon H).
Defined.

(** * Stock, units sold and revenue *)

Lemma totalSold_app (invoices : list Invoice) (inv : Invoice) (sel : string) :
  ProductAnalytics.totalSold (invoices ++ [inv]) sel
  = ProductAnalytics.totalSold invoices sel + Chart.soldQuantity sel inv.
Proof.
  unfold ProductAnalytics.totalSold, ProductAnalytics.productInvoices,
    Chart.soldQuantity, ProductAnalytics.quantityOf.
  rewrite !filter_app, fold_left_app. cbn [filter].
  destruct (existsb _ (items inv)) eqn:Hex; cbn [filter].
  - destruct (type inv); cbn [isSale filter fold_left app]; [reflexivity | lia].
  - cbn [fold_left].
    rewrite find_absent.
    + destruct (type inv); lia.
    + intros y Hy. destruct (String.eqb (productId y) sel) eqn:E; [|reflexivity].
      assert (existsb (fun item => String.eqb (productId item) sel) (items inv) = true)
        by (apply existsb_exists; now exists y).
      congruence.
Qed.

(** X27. When a SALE is recorded and the stock suffices, the stock of a
    product goes down by exactly the amount by which its units-sold figure
    goes up: the quantity of the first line that names it, 0 if none does. *)
Theorem sale_moves_stock_and_units
    (st : App.State) (inv : Invoice) (k : nat) (p : Product) :
  type inv = SALE ->
  nth_error (App.products st) k = Some p ->
  0 <= ProductAnalytics.quantityOf inv (id p) <= currentStock p ->
  exists p',
    nth_error (App.products (App.handleAddInvoice st inv)) k = Some p' /\
    currentStock p - currentStock p' = ProductAnalytics.quantityOf inv (id p) /\
    ProductAnalytics.totalSold (App.invoices (App.handleAddInvoice st inv)) (id p)
    - ProductAnalytics.totalSold (App.invoices st) (id p)
    = ProductAnalytics.quantityOf inv (id p).
Proof.
  intros Hty Hk Hq. exists (App.updateStock inv p).
  split; [now rewrite nth_error_handleAddInvoice, Hk|]. split.
  - unfold App.updateStock, ProductAnalytics.quantityOf in *. rewrite Hty.
    destruct (find _ (items inv)); cbn; lia.
  - unfold App.handleAddInvoice. cbn [App.invoices].
    rewrite totalSold_app. unfold Chart.soldQuantity. rewrite Hty. lia.
Qed.

Lemma sale_moves_stock_and_units_witness :
  type Sample.doubleSale = SALE /\
  0 <= ProductAnalytics.quantityOf Sample.doubleSale (id Sample.milk)
    <= currentStock Sample.milk /\
  exists p',
    nth_error (App.products (App.handleAddInvoice Sample.shop Sample.doubleSale)) 0
    = Some p' /\
    currentStock Sample.milk - currentStock p' = 5 /\
    ProductAnalytics.totalSold
      (App.invoices (App.handleAddInvoice Sample.shop Sample.doubleSale)) "1"
    - ProductAnalytics.totalSold (App.invoices Sample.shop) "1" = 5.
Proof.
  assert (H : 0 <= ProductAnalytics.quantityOf Sample.doubleSale (id Sample.milk)
              <= currentStock Sample.milk) by (cbn; lia).
  split; [reflexivity|]. split; [exact H|].
  exact (sale_moves_stock_and_units Sample.shop Sample.doubleSale 0 Sample.milk
           eq_refl eq_refl H).
Defined.

(** X28. If, in every SALE invoice, the line counted for the product has
    total = quantity * u for one unit price u, then the revenue shown for
    the product is u times its units sold. *)
Theorem revenue_is_price_times_units
    (invoices : list Invoice) (selectedProductId : string) (u : Z) :
  (forall inv i,
     In inv invoices -> type inv = SALE ->
     find (fun i => String.eqb (productId i) selectedProductId) (items inv) = Some i ->
     total i = quantity i * u) ->
  ProductAnalytics.totalRevenue invoices selectedProductId
  = ProductAnalytics.totalSold invoices selectedProductId * u.
Proof.
  intros Hu. unfold ProductAnalytics.totalRevenue, ProductAnalytics.totalSold.
  rewrite !fold_left_sum_map.
  assert (Hin : forall inv,
            In inv (filter (fun inv => isSale (type inv))
                      (ProductAnalytics.productInvoices invoices selectedProductId)) ->
            In inv invoices /\ type inv = SALE).
  { intros inv H. apply filter_In in H. destruct H as [H Ht].
    apply filter_In in H. split; [tauto|]. now destruct (type inv). }
  induction (filter (fun inv => isSale (type inv))
               (ProductAnalytics.productInvoices invoices selectedProductId))
    as [|inv l IH]; cbn [map fold_right]; [lia|].
  rewrite IH by (intros j Hj; apply Hin; now right).
  destruct (Hin inv (or_introl eq_refl)) as [Hi Ht].
  unfold ProductAnalytics.totalOf, ProductAnalytics.quantityOf.
  destruct (find _ (items inv)) as [i|] eqn:Hf; [|lia].
  rewrite (Hu inv i Hi Ht Hf). lia.
Qed.

Lemma revenue_is_price_times_units_witness :
  (forall inv i,
     In inv Sample.threeDays -> type inv = SALE ->
     find (fun i => String.eqb (productId i) "1") (items inv) = Some i ->
     total i = quantity i * 1200) /\
  ProductAnalytics.totalRevenue Sample.threeDays "1"
  = ProductAnalytics.totalSold Sample.threeDays "1" * 1200.
Proof.
  assert (H : forall inv i,
            In inv Sample.threeDays -> type inv = SALE ->
            find (fun i => String.eqb (productId i) "1") (items inv) = Some i ->
            total i = quantity i * 1200).
  { intros inv i [<-|[<-|[<-|[]]]] _ Hf; cbn in Hf; injection Hf as <-; reflexivity. }
  split; [exact H|].
  exact (revenue_is_price_times_units Sample.threeDays "1" 1200 H).
Defined.

(** * The stock chart *)

Lemma firstWord_prefix (s : string) :
  exists rest,
    s = (Dashboard.firstWord s ++ rest)%string /\
    (rest = EmptyString \/ exists r, rest = String " "%char r).
Proof.
  induction s as [|c s (rest & E & Hrest)]; cbn.
  - exists EmptyString. auto.
  - destruct (Ascii.eqb_spec c " "%char) as [->|Hc].
    + exists (String " "%char s). cbn. eauto.
    + exists rest. cbn. now rewrite <- E.
Qed.

Lemma firstWord_no_space (s : string) (c : ascii) :
  In c (list_ascii_of_string (Dashboard.firstWord s)) -> c <> " "%char.
Proof.
  induction s as [|a s IH]; cbn; [intros []|].
  destruct (Ascii.eqb_spec a " "%char) as [->|Ha]; cbn; [intros []|].
  intros [<-|H]; [exact Ha | now apply IH].
Qed.

(** X29. The stock chart has one bar per product, in catalog order, with
    the product's stock and minimum; the bar's label is the product's name
    up to its first space: it contains no space, and the name is the label
    alone or the label, a space, and the rest. *)
Theorem stock_bars_follow_catalog (products : list Product) (k : nat) (p : Product) :
  nth_error products k = Some p ->
  List.length (Dashboard.inventoryChartData products) = List.length products /\
  exists bar,
    nth_error (Dashboard.inventoryChartData products) k = Some bar /\
    Dashboard.stock bar = currentStock p /\
    Dashboard.min bar = minStock p /\
    (forall c, In c (list_ascii_of_string (Dashboard.barName bar)) -> c <> " "%char) /\
    exists rest,
      name p = (Dashboard.barName bar ++ rest)%string /\
      (rest = EmptyString \/ exists r, rest = String " "%char r).
Proof.
  intros Hk. unfold Dashboard.inventoryChartData.
  split; [apply length_map|].
  eexists. split; [rewrite nth_error_map, Hk; reflexivity|].
  cbn. repeat split.
  - apply firstWord_no_space.
  - apply firstWord_prefix.
Qed.

Lemma stock_bars_follow_catalog_witness :
  nth_error INITIAL_PRODUCTS 0 = Some Sample.milk /\
  nth_error (Dashboard.inventoryChartData INITIAL_PRODUCTS) 0
  = Some (Dashboard.mkStockBar "Leche" 12 20).
Proof.
  split; [reflexivity|].
  destruct (stock_bars_follow_catalog INITIAL_PRODUCTS 0 Sample.milk eq_refl)
    as (_ & bar & Hbar & _).
  rewrite Hbar. cbn in Hbar. injection Hbar as <-. reflexivity.
Defined.
